(** * Edge-runtime response building and the server handler

    A shallow embedding of [edge-runtime/lib/response.ts] ([buildResponse])
    and of the server handler that caches the framework's request handler.

    The hosting platform (fetch, URL, JSON, HTMLRewriter), the Node response
    object and the helper modules of the repository that the two files import
    ([util.ts], [headers.ts], [middleware.ts], [helpers/headers.js],
    [helpers/config.js]) are interfaces here: type classes whose fields the
    code calls.  Everything the two files themselves do is defined below.

    What can fail is modelled where the two files have it fail: [new URL]
    on what is no URL, [new Request] on a body that was read, [JSON.parse]
    and [response.json()] on what is no JSON, reading a property of [null],
    [body.length] of [undefined], the two calls that the initialisation of
    the server handler awaits, and the framework's request handler.  The
    promises of [fetch] and [context.next()] are taken to resolve, and the
    data transforms and the helper functions to return: what is said of the
    value a run returns is said of such a run. *)

From Stdlib Require Import Ascii String ZArith List Bool Lia.
From stdpp Require Import base option gmap strings list fin_maps pretty.

Open Scope string_scope.

Set Warnings "-register-all".

(** ** JavaScript strings, values and completions *)

Module JS.

(** [s.startsWith(p)] *)
Definition startsWith (s p : string) : bool := String.prefix p s.

(** [s.includes(needle)] *)
Fixpoint includes (s needle : string) : bool :=
  String.prefix needle s
  || match s with
     | EmptyString => false
     | String _ s' => includes s' needle
     end.

(** [s.length].  A string is held as the bytes of its UTF-8 encoding, and
    its length in JavaScript is the number of its UTF-16 code units: one
    for a character of one, two or three bytes, two for a character of four
    bytes.  A byte that continues a character counts for nothing. *)
Fixpoint string_length (s : string) : nat :=
  match s with
  | EmptyString => 0
  | String c s' =>
      let byte := nat_of_ascii c in
      (if (byte <? 128)%nat then 1
       else if (byte <? 192)%nat then 0
       else if (byte <? 240)%nat then 1
       else 2)
      + string_length s'
  end.

(** Truthiness of a [string | null]: [null] and the empty string are
    falsy.  The result is the string when it is truthy. *)
Definition truthy (v : option string) : option string :=
  match v with
  | Some s => if decide (s = "") then None else Some s
  | None => None
  end.

(** [String(b)] for a boolean. *)
Definition string_of_bool (b : bool) : string :=
  if b then "true" else "false".

(** The values [JSON.parse] produces, and [undefined], which a transform
    may return and a missing property reads as.  A number keeps its
    literal; an object keeps its own properties in enumeration order. *)
Inductive value : Type :=
| Undefined
| Null
| Boolean (b : bool)
| Number (literal : string)
| Str (s : string)
| Array (items : list value)
| Object (properties : list (string * value)).

Inductive Error : Type :=
| TypeError
| SyntaxError.

(** How a piece of code ends: normally with a value, or by throwing. *)
Inductive Completion (A : Type) : Type :=
| Normal (a : A)
| Throw (e : Error).
Arguments Normal {A} a.
Arguments Throw {A} e.

Fixpoint assoc (k : string) (ps : list (string * value)) : option value :=
  match ps with
  | [] => None
  | (k', v) :: ps' => if decide (k = k') then Some v else assoc k ps'
  end.

(** [data.props]: reading a property of [null] or [undefined] throws;
    a value without the property reads as [undefined]. *)
Definition get_props (data : value) : Completion value :=
  match data with
  | Undefined | Null => Throw TypeError
  | Object ps => Normal (default Undefined (assoc "props" ps))
  | _ => Normal Undefined
  end.

(** The own enumerable properties that [{...data}] copies. *)
Definition own_properties (data : value) : list (string * value) :=
  match data with
  | Object ps => ps
  | Array items => imap (fun i v => (pretty i, v)) items
  | Str s =>
      imap (fun i c => (pretty i, Str (String c EmptyString)))
           (list_ascii_of_string s)
  | _ => []
  end.

(** Defining property [k] on an object literal under construction: an
    existing property keeps its place, a new one goes last. *)
Fixpoint define_property (k : string) (v : value)
    (ps : list (string * value)) : list (string * value) :=
  match ps with
  | [] => [(k, v)]
  | (k', v') :: ps' =>
      if decide (k = k') then (k, v) :: ps'
      else (k', v') :: define_property k v ps'
  end.

(** [{ ...data, props }] *)
Definition spread_with_props (data props : value) : value :=
  Object (define_property "props" props (own_properties data)).

End JS.

Import JS.

(** ** The fetch API objects the code handles *)

(** A [Headers] object: header names (lower-cased by the platform) to their
    combined values. *)
Abbreviation Headers := (gmap string string).

Module Hdr.

Definition get (name : string) (h : Headers) : option string := h !! name.

Definition has (name : string) (h : Headers) : bool :=
  bool_decide (is_Some (h !! name)).

Definition set (name value : string) (h : Headers) : Headers :=
  <[name := value]> h.

Definition delete (name : string) (h : Headers) : Headers :=
  base.delete name h.

(** [h.append(name, value)]: a second value is joined to the first. *)
Definition append (name value : string) (h : Headers) : Headers :=
  match h !! name with
  | Some old => <[name := old ++ ", " ++ value]> h
  | None => <[name := value]> h
  end.

(** [[...h.entries()]] *)
Definition entries (h : Headers) : list (string * string) := map_to_list h.

(** [new Headers(init)] from a list of pairs appends them in order. *)
Definition of_entries (init : list (string * string)) : Headers :=
  foldl (fun h kv => append kv.1 kv.2 h) ∅ init.

End Hdr.

Record Request : Type := mkRequest {
  req_url : string;
  req_method : string;
  req_headers : Headers;
  req_body : option string;
  req_bodyUsed : bool
}.

(** A response is its headers and its body.  The status goes along with
    the headers through [new Response(body, init)] and no line of
    [buildResponse] reads it. *)
Record Response : Type := mkResponse {
  res_headers : Headers;
  res_body : option string
}.

Definition request_with_headers (h : Headers) (r : Request) : Request :=
  mkRequest (req_url r) (req_method r) h (req_body r) (req_bodyUsed r).

Definition request_body_used (r : Request) : Request :=
  mkRequest (req_url r) (req_method r) (req_headers r) (req_body r) true.

Definition response_with_headers (h : Headers) (r : Response) : Response :=
  mkResponse h (res_body r).

(** [new Response(body, init)] copies the headers of [init]. *)
Definition new_Response (body : option string) (init_headers : Headers)
  : Response := mkResponse init_headers body.

(** [Response.json(data, { headers })]: the body is the serialised data, and
    a content type is added when the headers have none. *)
Definition Response_json (serialised : string) (h : Headers) : Response :=
  mkResponse
    (if Hdr.has "content-type" h then h
     else Hdr.set "content-type" "application/json" h)
    (Some serialised).

(** ** HTMLRewriter handlers *)

Record TextChunk : Type := mkTextChunk {
  text : string;
  lastInTextNode : bool
}.

(** What a text handler did to the chunk it was given. *)
Inductive ChunkEdit : Type :=
| Kept
| Removed
| Replaced (content : string) (html : bool).

(** What [rewriter.on(selector, handlers)] registers: the handler of the
    Next data script tag, which closes over the transforms, or handlers a
    middleware supplied. *)
Inductive ContentHandlers (EH : Type) : Type :=
| NextDataScript (dataTransforms : list (value -> value))
| Supplied (handlers : EH).
Arguments NextDataScript {EH} dataTransforms.
Arguments Supplied {EH} handlers.

(** ** The platform *)

Class Platform : Type := {
  (** [URL] objects; [URL_new url base] is [None] when [new URL] throws. *)
  URL : Type;
  URL_new : string -> option string -> option URL;
  URL_toString : URL -> string;
  URL_origin : URL -> string;
  URL_pathname : URL -> string;
  URL_set_pathname : string -> URL -> URL;
  (** [JSON.parse], [None] on a syntax error, and the text [JSON.stringify]
      gives for a value other than [undefined]. *)
  JSON_parse : string -> option value;
  JSON_serialise : value -> string;
  String_trim : string -> string;
  (** The response that [fetch] resolves to. *)
  fetch_response : Request -> Response;
  (** Handler objects of the HTML rewriter, and its [transform]. *)
  ElementHandlers : Type;
  HTMLRewriter_transform :
    list (string * ContentHandlers ElementHandlers) -> Response -> Response
}.

(** [JSON.stringify(v)] is [undefined] for [undefined]. *)
Definition JSON_stringify `{Platform} (v : value) : option string :=
  match v with
  | Undefined => None
  | _ => Some (JSON_serialise v)
  end.

(** ** Helper modules of the repository that the file imports *)

Record LocalePath : Type := mkLocalePath {
  detectedLocale : option string;
  pathname : string
}.

Class Helpers : Type := {
  (** [headers.ts]: returns the request and response headers as it leaves
      them. *)
  updateModifiedHeaders : Headers -> Headers -> Headers * Headers;
  (** [util.ts] *)
  relativizeURL : string -> string -> string;
  normalizeLocalePath : string -> option (list string) -> LocalePath;
  normalizeDataUrl : string -> string;
  rewriteDataPath : string -> string -> option string -> string;
  (** [middleware.ts]: first the response the promise resolves to, then the
      middleware response. *)
  addMiddlewareHeaders : Response -> Response -> Response
}.

Record I18n : Type := mkI18n { locales : option (list string) }.

Record NextConfig : Type := mkNextConfig {
  basePath : option string;
  i18n : option I18n
}.

(** [nextConfig?.basePath] *)
Definition config_basePath (nextConfig : option NextConfig) : option string :=
  match nextConfig with
  | Some c => basePath c
  | None => None
  end.

(** [nextConfig?.i18n?.locales] *)
Definition config_locales (nextConfig : option NextConfig)
  : option (list string) :=
  match nextConfig with
  | Some c => match i18n c with Some i => locales i | None => None end
  | None => None
  end.

(** The platform context: [next] is what [context.next()] resolves to. *)
Record Context : Type := mkContext { next : Response }.

(** ** [buildResponse] *)

Section BuildResponse.

Context {platform : Platform} {helpers : Helpers}.

Record MiddlewareResponse : Type := mkMiddlewareResponse {
  mr_headers : Headers;
  mr_body : option string;
  originResponse : Response;
  (** [cookies._headers], which may be missing *)
  cookies_headers : option Headers;
  (** the transforms, as the functions they compute when they return *)
  dataTransforms : list (value -> value);
  elementHandlers : list (string * ElementHandlers)
}.

(** What the middleware handed back as [result.response]: a
    [MiddlewareRequest] (with what its [next()] resolves to), a
    [MiddlewareResponse], or a plain [Response]. *)
Inductive ResultResponse : Type :=
| IsMiddlewareRequest (h : Headers) (body : option string)
    (next_result : ResultResponse)
| IsMiddlewareResponse (response : MiddlewareResponse)
| IsResponse (response : Response).

Definition isMiddlewareRequest (r : ResultResponse) : bool :=
  match r with IsMiddlewareRequest _ _ _ => true | _ => false end.

Definition isMiddlewareResponse (r : ResultResponse) : bool :=
  match r with IsMiddlewareResponse _ => true | _ => false end.

Definition headers_of (r : ResultResponse) : Headers :=
  match r with
  | IsMiddlewareRequest h _ _ => h
  | IsMiddlewareResponse m => mr_headers m
  | IsResponse r => res_headers r
  end.

Definition body_of (r : ResultResponse) : option string :=
  match r with
  | IsMiddlewareRequest _ b _ => b
  | IsMiddlewareResponse m => mr_body m
  | IsResponse r => res_body r
  end.

Definition with_headers (h : Headers) (r : ResultResponse) : ResultResponse :=
  match r with
  | IsMiddlewareRequest _ b n => IsMiddlewareRequest h b n
  | IsMiddlewareResponse m =>
      IsMiddlewareResponse
        (mkMiddlewareResponse h (mr_body m) (originResponse m)
           (cookies_headers m) (dataTransforms m) (elementHandlers m))
  | IsResponse r => IsResponse (response_with_headers h r)
  end.

Definition with_originResponse (o : Response) (m : MiddlewareResponse)
  : MiddlewareResponse :=
  mkMiddlewareResponse (mr_headers m) (mr_body m) o
    (cookies_headers m) (dataTransforms m) (elementHandlers m).

(** *** Effects

    The code mutates [request] and [result.response], logs, and calls out to
    the platform.  A run threads the two objects and the list of calls it
    made; it ends normally or by throwing. *)

Inductive Event : Type :=
| Debug (fields : list (string * string)) (message : string)
| MiddlewareNext
| ArrayBuffer
| Fetch (request : Request)
| ContextNext.

Record World : Type := mkWorld {
  w_request : Request;
  w_result : ResultResponse;
  w_events : list Event
}.

Definition M (A : Type) : Type := World -> Completion A * World.

#[export] Instance M_ret : MRet M := fun A a w => (Normal a, w).

#[export] Instance M_bind : MBind M := fun A B f m w =>
  match m w with
  | (Normal a, w') => f a w'
  | (Throw e, w') => (Throw e, w')
  end.

Definition throw {A : Type} (e : Error) : M A := fun w => (Throw e, w).

Definition emit (e : Event) : M unit := fun w =>
  (Normal tt, mkWorld (w_request w) (w_result w) ((w_events w ++ [e])%list)).

Definition get_request : M Request := fun w => (Normal (w_request w), w).

Definition set_request (r : Request) : M unit := fun w =>
  (Normal tt, mkWorld r (w_result w) (w_events w)).

Definition get_result : M ResultResponse := fun w => (Normal (w_result w), w).

Definition set_result (r : ResultResponse) : M unit := fun w =>
  (Normal tt, mkWorld (w_request w) r (w_events w)).

(** [logger.withFields(fields).debug(message)] *)
Definition debug (fields : list (string * string)) (message : string)
  : M unit := emit (Debug fields message).

(** [request.headers.set(name, value)] *)
Definition request_headers_set (name value : string) : M unit :=
  request ← get_request;
  set_request (request_with_headers (Hdr.set name value (req_headers request))
                 request).

(** [new URL(url, base)] *)
Definition new_URL (url : string) (base : option string) : M URL :=
  match URL_new url base with
  | Some u => mret u
  | None => throw TypeError
  end.

(** [await fetch(request)] *)
Definition fetch (request : Request) : M Response :=
  emit (Fetch request);; mret (fetch_response request).

(** [await request.arrayBuffer()]: reads the body and marks it used. *)
Definition arrayBuffer : M (option string) :=
  emit ArrayBuffer;;
  request ← get_request;
  set_request (request_body_used request);;
  mret (req_body request).

(** *** The handler of the Next data script tag

    [text(textChunk)] of lines 78-101, with the buffer it closes over passed
    in and out.  The third component is what the [catch] logged. *)
Definition NextData_text (transforms : list (value -> value))
    (buffer : string) (textChunk : TextChunk)
  : string * ChunkEdit * option Error :=
  let buffer := buffer ++ text textChunk in
  if lastInTextNode textChunk then
    match JSON_parse (String_trim buffer) with
    | None => (buffer, Kept, Some SyntaxError)
    | Some data =>
        match get_props data with
        | Throw e => (buffer, Kept, Some e)
        | Normal data_props =>
            let props :=
              fold_left (fun prev transform => transform prev)
                transforms data_props in
            (buffer,
             Replaced (JSON_serialise (spread_with_props data props)) true,
             None)
        end
    end
  else (buffer, Removed, None).

(** The handler run over the chunks the rewriter feeds it, in order. *)
Fixpoint NextData_run (transforms : list (value -> value)) (buffer : string)
    (chunks : list TextChunk) : string * list ChunkEdit :=
  match chunks with
  | [] => (buffer, [])
  | c :: cs =>
      let '(buffer', edit, _) := NextData_text transforms buffer c in
      let '(buffer'', edits) := NextData_run transforms buffer' cs in
      (buffer'', edit :: edits)
  end.

Definition dquote : string := String (Ascii.ascii_of_nat 34) EmptyString.

Definition NEXT_DATA_selector : string :=
  "script[id=" ++ dquote ++ "__NEXT_DATA__" ++ dquote ++ "]".

(** [new Request(url, init)] with a request as [init]: the new request has
    the method and the headers of [init], and its body is the body stream
    of [init].  A stream that was read already is refused. *)
Definition new_Request (url : string) (init : Request) : Completion Request :=
  match req_body init with
  | Some body =>
      if req_bodyUsed init then Throw TypeError
      else Normal (mkRequest url (req_method init) (req_headers init)
                     (Some body) false)
  | None =>
      Normal (mkRequest url (req_method init) (req_headers init) None false)
  end.

(** [await context.next()] *)
Definition context_next (context : Context) : M Response :=
  emit ContextNext;; mret (next context).

(** A completion of pure code, taken into a run. *)
Definition lift {A : Type} (c : Completion A) : M A :=
  match c with
  | Normal a => mret a
  | Throw e => throw e
  end.

(** What sending a request built by [new Request(url, request)] does to
    [request]: the body that is sent is the stream of [request], which is
    used from then on. *)
Definition body_sent : M unit :=
  request ← get_request;
  match req_body request with
  | Some _ => set_request (request_body_used request)
  | None => mret tt
  end.

(** [r.headers.get('content-type')?.includes('application/json')] *)
Definition is_json (r : Response) : bool :=
  match Hdr.get "content-type" (res_headers r) with
  | Some content_type => includes content_type "application/json"
  | None => false
  end.

(** Lines 49-56: the cookies of the response are copied over to its
    [originResponse], when there are any. *)
Definition copy_cookies (response : MiddlewareResponse) : MiddlewareResponse :=
  match cookies_headers response with
  | Some cookies =>
      if Hdr.has "set-cookie" cookies then
        with_originResponse
          (response_with_headers
             (Hdr.set "set-cookie"
                (default "" (Hdr.get "set-cookie" cookies))
                (res_headers (originResponse response)))
             (originResponse response))
          response
      else response
  | None => response
  end.

(** Lines 43-108: [result.response] is a [MiddlewareResponse]. *)
Definition middlewareResponse (response : MiddlewareResponse)
  : M (option Response) :=
  request ← get_request;
  if (req_method request =? "HEAD")%string
     || (req_method request =? "OPTIONS")%string
  then mret (Some (originResponse response))
  else
    let response := copy_cookies response in
    set_result (IsMiddlewareResponse response);;
    (* If it's JSON we don't need to use the rewriter *)
    if is_json (originResponse response)
    then
      match JSON_parse (default "" (res_body (originResponse response))) with
      | None => throw SyntaxError
      | Some props =>
          let transformed :=
            fold_left (fun prev transform => transform prev)
              (dataTransforms response) props in
          match JSON_stringify transformed with
          | None => throw TypeError
          | Some body =>
              let headers :=
                Hdr.set "content-length" (pretty (string_length body))
                  (mr_headers response) in
              mret (Some (Response_json body headers))
          end
      end
    else
      let rewriter : list (string * ContentHandlers ElementHandlers) :=
        ((if (0 <? length (dataTransforms response))%nat
          then [(NEXT_DATA_selector,
                 NextDataScript (dataTransforms response))]
          else [])
         ++ (if (0 <? length (elementHandlers response))%nat
             then map (fun sh => (sh.1, Supplied sh.2))
                    (elementHandlers response)
             else []))%list in
      mret (Some (HTMLRewriter_transform rewriter (originResponse response))).

(** Lines 173-188: the redirect target and the response, with the locale
    of the request added back into the redirect.  [request_url] is
    [request.url]. *)
Definition localeRedirect (request_url : string)
    (nextConfig : option NextConfig) (requestLocale : option string)
    (res : Response)
  : Completion (option string * Response) :=
  let redirect := Hdr.get "location" (res_headers res) in
  match truthy redirect, truthy requestLocale with
  | Some target, Some requestLocale =>
      match URL_new target (Some request_url) with
      | None => Throw TypeError
      | Some redirectUrl =>
          let normalizedRedirect :=
            normalizeLocalePath (URL_pathname redirectUrl)
              (config_locales nextConfig) in
          let locale :=
            default requestLocale (detectedLocale normalizedRedirect) in
          (* Pages router API routes don't have a locale in the URL *)
          if bool_decide (locale ≠ "")
             && negb (startsWith (URL_pathname redirectUrl) "/api/")
          then
            let redirectUrl :=
              URL_set_pathname ("/" ++ locale ++ pathname normalizedRedirect)
                redirectUrl in
            let redirect := URL_toString redirectUrl in
            Normal (Some redirect,
                    response_with_headers
                      (Hdr.set "location" redirect (res_headers res)) res)
          else Normal (redirect, res)
      end
  | _, _ => Normal (redirect, res)
  end.

(** Lines 110-207: [result.response] is taken as a plain response, and
    [res] is [new Response(result.response.body, result.response)]. *)
Definition plainResponse (context : Context) (nextConfig : option NextConfig)
    (requestLocale : option string) (res : Response) : M (option Response) :=
  request_headers_set "x-nf-next-middleware" "skip";;
  request ← get_request;
  let rewrite := Hdr.get "x-middleware-rewrite" (res_headers res) in
  (* Data requests need special handling *)
  let isDataReq := Hdr.has "x-nextjs-data" (req_headers request) in
  match truthy rewrite with
  | Some rewrite =>
      debug [("rewrite_url", rewrite)] "Found middleware rewrite";;
      rewriteUrl ← new_URL rewrite (Some (req_url request));
      baseUrl ← new_URL (req_url request) None;
      if decide (URL_toString rewriteUrl = URL_toString baseUrl) then
        debug [("rewrite_url", rewrite)] "Rewrite url is same as original url";;
        mret None
      else
        let relativeUrl := relativizeURL rewrite (req_url request) in
        originalUrl ← new_URL (req_url request) (Some "http://n");
        let originalPath := URL_pathname originalUrl in
        let res :=
          if isDataReq
          then response_with_headers
                 (Hdr.set "x-nextjs-rewrite" relativeUrl (res_headers res)) res
          else res in
        if decide (URL_origin rewriteUrl ≠ URL_origin baseUrl) then
          debug [("rewrite_url", rewrite)] "Rewriting to external url";;
          (* Remove Netlify internal headers *)
          let headers :=
            Hdr.of_entries
              (List.filter (fun kv => negb (startsWith kv.1 "x-nf-"))
                 (Hdr.entries (req_headers request))) in
          proxyRequest ←
            (if match req_body request with
                | Some _ => negb (req_bodyUsed request)
                | None => false
                end
             then
               body ← arrayBuffer;
               mret (mkRequest (URL_toString rewriteUrl) (req_method request)
                       headers body false)
             else
               mret (mkRequest (URL_toString rewriteUrl) (req_method request)
                       headers None false));
          origin ← fetch proxyRequest;
          mret (Some (addMiddlewareHeaders origin res))
        else
          let rewriteUrl :=
            if isDataReq
            then URL_set_pathname
                   (rewriteDataPath originalPath (URL_pathname rewriteUrl)
                      (config_basePath nextConfig))
                   rewriteUrl
            else rewriteUrl in
          let res :=
            response_with_headers
              (Hdr.set "x-middleware-rewrite" relativeUrl (res_headers res))
              res in
          request_headers_set "x-middleware-rewrite" rewrite;;
          request ← get_request;
          rewritten ← lift (new_Request (URL_toString rewriteUrl) request);
          origin ← fetch rewritten;
          body_sent;;
          mret (Some (addMiddlewareHeaders origin res))
  | None =>
      redirected ←
        lift (localeRedirect (req_url request) nextConfig requestLocale res);
      let redirect := redirected.1 in
      let res := redirected.2 in
      (* Data requests shouldn't automatically redirect in the browser *)
      let res :=
        match truthy redirect with
        | Some target =>
            if isDataReq then
              response_with_headers
                (Hdr.set "x-nextjs-redirect"
                   (relativizeURL target (req_url request))
                   (Hdr.delete "location" (res_headers res)))
                res
            else res
        | None => res
        end in
      let nextRedirect := Hdr.get "x-nextjs-redirect" (res_headers res) in
      let res :=
        match truthy nextRedirect with
        | Some nextRedirect =>
            if isDataReq then
              response_with_headers
                (Hdr.set "x-nextjs-redirect" (normalizeDataUrl nextRedirect)
                   (res_headers res))
                res
            else res
        | None => res
        end in
      if decide (Hdr.get "x-middleware-next" (res_headers res) = Some "1")
      then
        let res :=
          response_with_headers
            (Hdr.delete "x-middleware-next" (res_headers res)) res in
        origin ← context_next context;
        mret (Some (addMiddlewareHeaders origin res))
      else mret (Some res)
  end.

(** Lines 24-208.  [request] and [result] are the two objects of the world;
    what [logger] is told goes to the event list. *)
Definition buildResponse (context : Context) (nextConfig : option NextConfig)
    (requestLocale : option string) : M (option Response) :=
  result ← get_result;
  debug [("is_nextresponse_next",
          string_of_bool (Hdr.has "x-middleware-next" (headers_of result)))]
        "Building Next.js response";;
  request ← get_request;
  let modified :=
    updateModifiedHeaders (req_headers request) (headers_of result) in
  set_request (request_with_headers modified.1 request);;
  set_result (with_headers modified.2 result);;
  (* They've returned the MiddlewareRequest directly, so we'll call
     next() for them. *)
  result ← get_result;
  match result with
  | IsMiddlewareRequest _ _ next_result =>
      emit MiddlewareNext;; set_result next_result
  | _ => mret tt
  end;;
  result ← get_result;
  match result with
  | IsMiddlewareResponse response => middlewareResponse response
  | _ =>
      plainResponse context nextConfig requestLocale
        (new_Response (body_of result) (headers_of result))
  end.

(** The requests a run fetched, in order. *)
Fixpoint fetches (events : list Event) : list Request :=
  match events with
  | [] => []
  | Fetch request :: rest => request :: fetches rest
  | _ :: rest => fetches rest
  end.

(** *** What the statements about [buildResponse] speak of *)

(** The request headers and the response headers as line 36 leaves them. *)
Definition overridden (request : Request) (r : Response) : Headers * Headers :=
  updateModifiedHeaders (req_headers request) (res_headers r).

(** The text of a run of chunks. *)
Definition script_content (chunks : list TextChunk) : string :=
  foldr (fun c rest => text c ++ rest) "" chunks.

(** What the handler does with the last chunk, given all the text. *)
Definition last_chunk_edit (transforms : list (value -> value))
    (content : string) : ChunkEdit :=
  match JSON_parse (String_trim content) with
  | None => Kept
  | Some data =>
      match get_props data with
      | Throw _ => Kept
      | Normal data_props =>
          Replaced
            (JSON_serialise
               (spread_with_props data
                  (fold_left (fun prev transform => transform prev)
                     transforms data_props)))
            true
      end
  end.

(** The reading of the specification that a run fetches at most once and
    only across origins: whatever is fetched, the response carries a rewrite
    whose target has another origin than the request URL. *)
Definition fetches_only_across_origins (context : Context)
    (nextConfig : option NextConfig) (requestLocale : option string)
    (w : World) : Prop :=
  let run := buildResponse context nextConfig requestLocale w in
  exists fs : list Request,
    fetches (w_events run.2) = (fetches (w_events w) ++ fs)%list
    /\ length fs <= 1
    /\ forall q, q ∈ fs ->
         exists rewrite rewriteUrl baseUrl,
           Hdr.get "x-middleware-rewrite" (headers_of (w_result run.2))
           = Some rewrite
           /\ URL_new rewrite (Some (req_url (w_request w))) = Some rewriteUrl
           /\ URL_new (req_url (w_request w)) None = Some baseUrl
           /\ URL_origin rewriteUrl ≠ URL_origin baseUrl.

(** The reading of the specification that the transforms of a middleware
    response are applied whatever the request: to the parsed JSON body of a
    JSON origin response, and by the handler of the Next data script tag
    otherwise. *)
Definition transforms_are_applied (context : Context)
    (nextConfig : option NextConfig) (requestLocale : option string)
    (request : Request) (response : MiddlewareResponse)
    (events : list Event) : Prop :=
  let run := buildResponse context nextConfig requestLocale
               (mkWorld request (IsMiddlewareResponse response) events) in
  let origin := originResponse response in
  let transforms := dataTransforms response in
  (forall props,
      is_json origin = true ->
      JSON_parse (default "" (res_body origin)) = Some props ->
      let transformed :=
        fold_left (fun prev transform => transform prev) transforms props in
      transformed ≠ Undefined ->
      exists returned,
        run.1 = Normal (Some returned)
        /\ res_body returned = Some (JSON_serialise transformed))
  /\ (is_json origin = false ->
      exists origin',
        res_body origin' = res_body origin
        /\ run.1
           = Normal
               (Some (HTMLRewriter_transform
                        ((NEXT_DATA_selector, NextDataScript transforms)
                         :: map (fun sh => (sh.1, Supplied sh.2))
                              (elementHandlers response))
                        origin'))).

(** How often a run called [context.next()]. *)
Fixpoint continues (events : list Event) : nat :=
  match events with
  | [] => 0
  | ContextNext :: rest => S (continues rest)
  | _ :: rest => continues rest
  end.

(** How often a run called [next()] on a [MiddlewareRequest]. *)
Fixpoint middleware_nexts (events : list Event) : nat :=
  match events with
  | [] => 0
  | MiddlewareNext :: rest => S (middleware_nexts rest)
  | _ :: rest => middleware_nexts rest
  end.

(** How often a run read the body of the request. *)
Fixpoint body_reads (events : list Event) : nat :=
  match events with
  | [] => 0
  | ArrayBuffer :: rest => S (body_reads rest)
  | _ :: rest => body_reads rest
  end.

(** [request.body && !request.bodyUsed] *)
Definition has_unused_body (request : Request) : bool :=
  match req_body request with
  | Some _ => negb (req_bodyUsed request)
  | None => false
  end.

(** The handlers that lines 76-107 register, in order. *)
Definition registered_handlers (response : MiddlewareResponse)
  : list (string * ContentHandlers ElementHandlers) :=
  (match dataTransforms response with
   | [] => []
   | _ :: _ => [(NEXT_DATA_selector, NextDataScript (dataTransforms response))]
   end
   ++ map (fun sh => (sh.1, Supplied sh.2)) (elementHandlers response))%list.

(** The headers of a middleware response as line 36 leaves them. *)
Definition overridden_headers (request : Request)
    (response : MiddlewareResponse) : Headers :=
  (updateModifiedHeaders (req_headers request) (mr_headers response)).2.

(** [request.body] is a stream and not [null]. *)
Definition has_body (request : Request) : bool :=
  match req_body request with
  | Some _ => true
  | None => false
  end.

(** [request.body && request.bodyUsed]: what [new Request(url, request)]
    refuses. *)
Definition has_used_body (request : Request) : bool :=
  has_body request && req_bodyUsed request.

(** What a run leaves of the request and adds to the events. *)
Definition effects_within (w w' : World) (new : list Event) : Prop :=
  w_events w' = (w_events w ++ new)%list
  /\ length (fetches new) + continues new <= 1
  /\ body_reads new <= length (fetches new)
  /\ req_url (w_request w') = req_url (w_request w)
  /\ req_method (w_request w') = req_method (w_request w)
  /\ req_body (w_request w') = req_body (w_request w)
  /\ req_bodyUsed (w_request w')
     = req_bodyUsed (w_request w)
       || (has_body (w_request w) && (0 <? length (fetches new))%nat).

End BuildResponse.

(** ** The server handler

    The second file: a module with two variables, [nextHandler] and
    [nextConfig], and the default export that serves one request. *)

(** The Node response object that [toReqRes] makes and the handler writes
    to: status code, headers, what was written, and whether [end] was
    called. *)
Record ServerResponse : Type := mkServerResponse {
  statusCode : Z;
  sr_headers : Headers;
  written : string;
  writableEnded : bool
}.

(** The fetch response that [toComputeResponse] makes of it. *)
Record ComputeResponse : Type := mkComputeResponse {
  status : Z;
  cr_headers : Headers;
  cr_body : string
}.

(** [res.end(data)] *)
Definition ServerResponse_end (data : string) (res : ServerResponse)
  : ServerResponse :=
  if writableEnded res then res
  else mkServerResponse (statusCode res) (sr_headers res)
         (written res ++ data) true.

Definition with_statusCode (code : Z) (res : ServerResponse) : ServerResponse :=
  mkServerResponse code (sr_headers res) (written res) (writableEnded res).

Definition with_sr_headers (h : Headers) (res : ServerResponse)
  : ServerResponse :=
  mkServerResponse (statusCode res) h (written res) (writableEnded res).

Definition toComputeResponse (res : ServerResponse) : ComputeResponse :=
  mkComputeResponse (statusCode res) (sr_headers res) (written res).

(** What the server handler imports: the framework, the conversion of the
    request, and the helpers of [helpers/config.js] and
    [helpers/headers.js], which set headers on [res].

    [Outside] is what the module does not hold and an invocation finds as
    it is: the files of the deployment, the state of the framework.  The
    two calls that the initialisation awaits resolve or reject according
    to it. *)
Class ServerEnv : Type := {
  NextConfigComplete : Type;
  IncomingMessage : Type;
  im_url : IncomingMessage -> string;
  (** the [req] of [toReqRes(request)] *)
  toReq : Request -> IncomingMessage;
  RUN_DIR : string;
  Outside : Type;
  (** [await getRunConfig()], with the import before it: the configuration,
      or what the promise rejects with *)
  getRunConfig : Outside -> Completion NextConfigComplete;
  (** [await getRequestHandlers({ port, hostname, dir, isDev })], with the
      import before it: the first of the handlers the promise resolves to,
      or what it rejects with.  A handler is given [req] and [res]; it
      writes to [res] and then completes or throws, and [res] is as it
      leaves it either way. *)
  getRequestHandlers :
    Z -> string -> string -> bool -> Outside ->
    Completion (IncomingMessage -> ServerResponse -> Outside ->
                Completion unit * ServerResponse);
  setCacheControlHeaders : Headers -> Headers;
  setVaryHeaders :
    Headers -> IncomingMessage -> option NextConfigComplete -> Headers
}.

Section ServerHandler.

Context {env : ServerEnv}.

Definition WorkerRequestHandler : Type :=
  IncomingMessage -> ServerResponse -> Outside ->
  Completion unit * ServerResponse.

(** The module-scoped variables. *)
Record ModuleScope : Type := mkModuleScope {
  nextHandler : option WorkerRequestHandler;
  nextConfig : option NextConfigComplete
}.

Inductive ServerEvent : Type :=
| AssignNextConfig
| SetRunConfig
| AssignNextHandler
| LogRequest (url : string)
| CallNextHandler
| ConsoleError (error : Error)
| LogResponse (h : Headers) (code : Z).

(** [toReqRes(request)]: [res] starts with status 200 and nothing written. *)
Definition toReqRes (request : Request) : IncomingMessage * ServerResponse :=
  (toReq request, mkServerResponse 200 ∅ "" false).

(** Lines 223-237: the body of [if (!nextHandler)].  It is outside the
    [try]: when one of the two calls rejects, the invocation rejects with
    the variables as they are at that point. *)
Definition initialise (outside : Outside) (scope : ModuleScope)
  : Completion unit * ModuleScope * list ServerEvent :=
  match nextHandler scope with
  | Some _ => (Normal tt, scope, [])
  | None =>
      (* set the server config *)
      match getRunConfig outside with
      | Throw error => (Throw error, scope, [])
      | Normal config =>
          let scope := mkModuleScope (nextHandler scope) (Some config) in
          (* let Next.js initialize and create the request handler *)
          match getRequestHandlers 3000 "localhost" RUN_DIR false outside with
          | Throw error =>
              (Throw error, scope, [AssignNextConfig; SetRunConfig])
          | Normal created =>
              (Normal tt, mkModuleScope (Some created) (nextConfig scope),
               [AssignNextConfig; SetRunConfig; AssignNextHandler])
          end
      end
  end.

(** Lines 241-248: the call of the handler and the catch-all, which acts
    on [res] as the handler left it. *)
Definition callNextHandler (scope : ModuleScope) (req : IncomingMessage)
    (res : ServerResponse) (outside : Outside)
  : ServerResponse * list ServerEvent :=
  let '(completion, res) :=
    match nextHandler scope with
    | Some handler => handler req res outside
    | None => (Throw TypeError, res)
    end in
  match completion with
  | Normal _ => (res, [LogRequest (im_url req); CallNextHandler])
  | Throw error =>
      (ServerResponse_end "Internal Server Error" (with_statusCode 500 res),
       [LogRequest (im_url req); CallNextHandler; ConsoleError error])
  end.

(** Lines 222-258: the default export.  It gives the response it resolves
    to or what it rejects with, the module variables as it leaves them, and
    what it did. *)
Definition handler (request : Request) (outside : Outside)
    (scope : ModuleScope)
  : Completion ComputeResponse * ModuleScope * list ServerEvent :=
  match initialise outside scope with
  | (Throw error, scope, init_events) => (Throw error, scope, init_events)
  | (Normal _, scope, init_events) =>
      let '(req, res) := toReqRes request in
      let '(res, call_events) := callNextHandler scope req res outside in
      (* log the response from Next.js *)
      let log := LogResponse (sr_headers res) (statusCode res) in
      let res :=
        with_sr_headers (setCacheControlHeaders (sr_headers res)) res in
      let res :=
        with_sr_headers
          (setVaryHeaders (sr_headers res) req (nextConfig scope)) res in
      (Normal (toComputeResponse res), scope,
       (init_events ++ call_events ++ [log])%list)
  end.

(** A runtime instance serves its requests one after the other, starting
    with both variables unset.  Each invocation comes with what it finds
    outside. *)
Definition fresh_scope : ModuleScope := mkModuleScope None None.

Fixpoint serve (invocations : list (Request * Outside)) (scope : ModuleScope)
  : list (Completion ComputeResponse) * ModuleScope * list (list ServerEvent) :=
  match invocations with
  | [] => ([], scope, [])
  | (request, outside) :: rest =>
      let '(response, scope, events) := handler request outside scope in
      let '(responses, scope, trace) := serve rest scope in
      (response :: responses, scope, events :: trace)
  end.

(** *** What the statements about the handler speak of *)

Definition is_AssignNextHandler (e : ServerEvent) : bool :=
  match e with AssignNextHandler => true | _ => false end.

Definition is_AssignNextConfig (e : ServerEvent) : bool :=
  match e with AssignNextConfig => true | _ => false end.

Definition is_CallNextHandler (e : ServerEvent) : bool :=
  match e with CallNextHandler => true | _ => false end.

Definition is_ConsoleError (e : ServerEvent) : bool :=
  match e with ConsoleError _ => true | _ => false end.

Definition is_LogResponse (e : ServerEvent) : bool :=
  match e with LogResponse _ _ => true | _ => false end.

Definition is_SetRunConfig (e : ServerEvent) : bool :=
  match e with SetRunConfig => true | _ => false end.

(** How often a run did something. *)
Definition times (p : ServerEvent -> bool) (events : list ServerEvent) : nat :=
  length (List.filter p events).

(** The handler that serves a request: the cached one, or the one that the
    initialisation of this invocation creates, when it gets that far. *)
Definition handler_in_effect (outside : Outside) (scope : ModuleScope)
  : Completion WorkerRequestHandler :=
  match nextHandler scope with
  | Some cached => Normal cached
  | None =>
      match getRunConfig outside with
      | Throw error => Throw error
      | Normal _ => getRequestHandlers 3000 "localhost" RUN_DIR false outside
      end
  end.

(** [getRunConfig] resolves. *)
Definition config_resolves (outside : Outside) : bool :=
  match getRunConfig outside with
  | Normal _ => true
  | Throw _ => false
  end.

(** Both calls of the initialisation resolve. *)
Definition initialisation_completes (outside : Outside) : bool :=
  match handler_in_effect outside fresh_scope with
  | Normal _ => true
  | Throw _ => false
  end.

(** The specification's reading of the two caches: in a runtime instance
    each variable is assigned at most once. *)
Definition caches_assigned_at_most_once
    (invocations : list (Request * Outside)) : Prop :=
  let trace := concat (serve invocations fresh_scope).2 in
  times is_AssignNextHandler trace <= 1
  /\ times is_AssignNextConfig trace <= 1.

(** The specification's reading of the catch-all: whenever the framework's
    handler throws, the response has status 500 and the body 'Internal
    Server Error'. *)
Definition error_gives_generic_500 (request : Request) (outside : Outside)
    (scope : ModuleScope) : Prop :=
  forall (created : WorkerRequestHandler) (error : Error)
         (res : ServerResponse),
    handler_in_effect outside scope = Normal created ->
    created (toReq request) (toReqRes request).2 outside = (Throw error, res) ->
    exists response : ComputeResponse,
      (handler request outside scope).1.1 = Normal response
      /\ status response = 500%Z
      /\ cr_body response = "Internal Server Error".

End ServerHandler.

Arguments times : simpl never.

(** ** A sample platform

    A small platform and small helpers to run the code on.  URLs are
    [http(s)://host/path], without query or fragment, and what is no such
    URL is resolved against the base as the URL standard resolves a
    reference that has no scheme; JSON documents are those of a short list;
    [addMiddlewareHeaders] lays the headers of the middleware response over
    those of the other response; and the HTML rewriter only notes how many
    handlers it was given. *)

Module Sample.

Record url : Type := mkUrl { origin : string; path : string }.

(** The host and the path of what follows [scheme://]. *)
Fixpoint host_and_path (s : string) : string * string :=
  match s with
  | EmptyString => (EmptyString, "/")
  | String c s' =>
      if decide (c = "/"%char) then (EmptyString, s)
      else let '(host, p) := host_and_path s' in (String c host, p)
  end.

Definition drop (n : nat) (s : string) : string :=
  substring n (String.length s - n) s.

(** What follows [scheme://]: a host, which may not be empty, and a
    path. *)
Definition after_scheme (scheme rest : string) : option url :=
  let '(host, p) := host_and_path rest in
  if decide (host = "") then None else Some (mkUrl (scheme ++ host) p).

Definition has_scheme (s : string) : bool :=
  String.prefix "https://" s || String.prefix "http://" s.

Definition parse_absolute (s : string) : option url :=
  if String.prefix "https://" s then after_scheme "https://" (drop 8 s)
  else if String.prefix "http://" s then after_scheme "http://" (drop 7 s)
  else None.

(** The path up to its last slash. *)
Fixpoint directory (p : string) : string :=
  match p with
  | EmptyString => EmptyString
  | String c p' =>
      if includes p' "/" then String c (directory p')
      else if decide (c = "/"%char) then "/" else EmptyString
  end.

Definition scheme_of (u : url) : string :=
  if String.prefix "https://" (origin u) then "https:" else "http:".

(** [new URL(s, base)]: a URL with a scheme stands for itself, and fails
    when it has no host; anything else is a reference against the base:
    the base itself when empty, a host and a path after two slashes, a path
    after one, and otherwise a name in the directory of the base. *)
Definition url_new (s : string) (base : option string) : option url :=
  if has_scheme s then parse_absolute s
  else
    match base ≫= parse_absolute with
    | Some b =>
        if decide (s = "") then Some b
        else if String.prefix "//" s then parse_absolute (scheme_of b ++ s)
        else if String.prefix "/" s then Some (mkUrl (origin b) s)
        else Some (mkUrl (origin b) (directory (path b) ++ s))
    | None => None
    end.

Definition url_toString (u : url) : string := origin u ++ path u.

Definition join (sep : string) (parts : list string) : string :=
  match parts with
  | [] => ""
  | p :: ps => fold_left (fun acc q => acc ++ sep ++ q) ps p
  end.

(** [JSON.stringify] of a value other than [undefined]: in an array
    [undefined] is written as [null], and a property whose value is
    [undefined] is left out. *)
Fixpoint serialise (v : value) : string :=
  match v with
  | Undefined | Null => "null"
  | Boolean b => string_of_bool b
  | Number literal => literal
  | Str s => dquote ++ s ++ dquote
  | Array items => "[" ++ join "," (map serialise items) ++ "]"
  | Object properties =>
      "{"
      ++ join ","
           (flat_map
              (fun kv =>
                 match snd kv with
                 | Undefined => []
                 | _ =>
                     [dquote ++ fst kv ++ dquote ++ ":" ++ serialise (snd kv)]
                 end)
              properties)
      ++ "}"
  end.

(** The documents the sample parser knows. *)
Definition documents : list value :=
  [Null; Number "1"; Object [("props", Number "1"); ("page", Str "/")]].

Definition parse (s : string) : option value :=
  List.find (fun v => String.eqb (serialise v) s) documents.

Fixpoint trim_start (s : string) : string :=
  match s with
  | String c s' => if decide (c = " "%char) then trim_start s' else s
  | EmptyString => EmptyString
  end.

Definition trim (s : string) : string :=
  String.rev (trim_start (String.rev (trim_start s))).

#[export] Instance platform : Platform := {
  URL := url;
  URL_new := url_new;
  URL_toString := url_toString;
  URL_origin := origin;
  URL_pathname := path;
  URL_set_pathname := fun p u => mkUrl (origin u) p;
  JSON_parse := parse;
  JSON_serialise := serialise;
  String_trim := trim;
  fetch_response := fun q =>
    mkResponse {[ "x-served-from" := req_url q ]} (Some "fetched");
  ElementHandlers := unit;
  HTMLRewriter_transform := fun registered r =>
    mkResponse
      (<["x-html-handlers" := pretty (length registered)]> (res_headers r))
      (res_body r)
}.

Definition relativize (target base : string) : string :=
  match url_new target (Some base), parse_absolute base with
  | Some t, Some b =>
      if decide (origin t = origin b) then path t else url_toString t
  | _, _ => target
  end.

(** The first locale that starts the path, and the path without it. *)
Fixpoint locale_of_path (p : string) (known : list string) : LocalePath :=
  match known with
  | [] => mkLocalePath None p
  | l :: rest =>
      if String.prefix ("/" ++ l ++ "/") p
      then mkLocalePath (Some l) (drop (S (String.length l)) p)
      else locale_of_path p rest
  end.

#[export] Instance helpers : Helpers := {
  updateModifiedHeaders := fun request_headers response_headers =>
    (request_headers, response_headers);
  relativizeURL := relativize;
  normalizeLocalePath := fun p known => locale_of_path p (default [] known);
  normalizeDataUrl := fun s =>
    if String.prefix "/_next/data/build" s then drop 17 s else s;
  rewriteDataPath := fun dataUrl newRoute basePath =>
    default "" basePath ++ "/_next/data/build" ++ newRoute ++ ".json";
  addMiddlewareHeaders := fun other res =>
    mkResponse (res_headers res ∪ res_headers other) (res_body other)
}.

(** What an invocation finds: a deployment that is ready, one whose
    framework does not start, or one whose configuration is missing. *)
Inductive deployment : Type :=
| Ready
| FrameworkFails
| ConfigMissing.

(** A framework handler that fails on two paths: on [/boom] before it has
    written anything, on [/partial] after it has written the start of the
    page. *)
Definition sample_handler (req : Request) (res : ServerResponse)
    (outside : deployment) : Completion unit * ServerResponse :=
  if decide (req_url req = "https://example.com/boom")
  then (Throw TypeError, res)
  else if decide (req_url req = "https://example.com/partial")
  then (Throw TypeError,
        mkServerResponse 200 {[ "content-type" := "text/html" ]}
          (written res ++ "<html>") false)
  else (Normal tt,
        mkServerResponse 200 {[ "content-type" := "text/html" ]}
          (written res ++ "<html></html>") true).

#[export] Instance server_env : ServerEnv := {
  NextConfigComplete := NextConfig;
  IncomingMessage := Request;
  im_url := req_url;
  toReq := fun request => request;
  RUN_DIR := "/var/task";
  Outside := deployment;
  getRunConfig := fun outside =>
    match outside with
    | ConfigMissing => Throw TypeError
    | _ => Normal (mkNextConfig None None)
    end;
  getRequestHandlers := fun _ _ _ _ outside =>
    match outside with
    | Ready => Normal sample_handler
    | _ => Throw TypeError
    end;
  setCacheControlHeaders := fun h =>
    <["cache-control" := "public, max-age=0, must-revalidate"]> h;
  setVaryHeaders := fun h _ _ => <["vary" := "rsc"]> h
}.

Definition page_request : Request :=
  mkRequest "https://example.com/blog" "GET"
    {[ "accept" := "text/html"; "x-nf-client-connection-ip" := "10.0.0.7" ]}
    None false.

Definition data_request : Request :=
  mkRequest "https://example.com/blog" "GET"
    {[ "accept" := "*/*"; "x-nextjs-data" := "1" ]} None false.

Definition sample_context : Context :=
  mkContext (mkResponse {[ "content-type" := "text/html" ]} (Some "origin")).

Definition sample_config : option NextConfig :=
  Some (mkNextConfig None (Some (mkI18n (Some ["en"; "fr"])))).

Definition wrap : value -> value := fun props => Array [props].

Definition json_response : MiddlewareResponse :=
  mkMiddlewareResponse ∅ None
    (mkResponse {[ "content-type" := "application/json" ]} (Some "1"))
    None [wrap] [].

Definition options_request : Request :=
  mkRequest "https://example.com/blog" "OPTIONS" ∅ None false.

Definition html_response : MiddlewareResponse :=
  mkMiddlewareResponse ∅ None
    (mkResponse {[ "content-type" := "text/html"; "set-cookie" := "old=1" ]}
       (Some "<html></html>"))
    (Some {[ "set-cookie" := "session=1" ]}) [wrap] [("a[href]", tt)].

Definition post_request : Request :=
  mkRequest "https://example.com/blog" "POST"
    {[ "content-type" := "text/plain" ]} (Some "payload") false.

Definition page_data : value :=
  Object [("props", Number "1"); ("page", Str "/")].


(** A request whose body was read already. *)
Definition read_request : Request :=
  mkRequest "https://example.com/blog" "POST"
    {[ "content-type" := "text/plain" ]} (Some "payload") true.

(** A middleware response that carries a rewrite. *)
Definition rewriting_response : MiddlewareResponse :=
  mkMiddlewareResponse {[ "x-middleware-rewrite" := "/fr/blog" ]} None
    (mkResponse {[ "content-type" := "text/html" ]} (Some "<html></html>"))
    None [] [].

Definition home_request : Request :=
  mkRequest "https://example.com/" "GET" ∅ None false.

Definition boom_request : Request :=
  mkRequest "https://example.com/boom" "GET" ∅ None false.

Definition partial_request : Request :=
  mkRequest "https://example.com/partial" "GET" ∅ None false.

End Sample.

(** ** Properties of the server handler *)

Section ServerProperties.

Context {env : ServerEnv}.

Lemma times_app p (l1 l2 : list ServerEvent) :
  times p (l1 ++ l2)%list = times p l1 + times p l2.
Proof. unfold times. now rewrite List.filter_app, length_app. Qed.

Lemma initialise_cached outside scope cached :
  nextHandler scope = Some cached ->
  initialise outside scope = (Normal tt, scope, []).
Proof. intros E. unfold initialise. now rewrite E. Qed.

(** The initialisation gets through exactly when there is a handler to
    call, and then that handler is the one in [nextHandler]. *)
Lemma initialise_completes outside scope created :
  handler_in_effect outside scope = Normal created ->
  exists scope' events,
    initialise outside scope = (Normal tt, scope', events)
    /\ nextHandler scope' = Some created
    /\ (is_Some (nextHandler scope) -> scope' = scope /\ events = [])
    /\ (nextHandler scope = None ->
        is_Some (nextConfig scope')
        /\ events = [AssignNextConfig; SetRunConfig; AssignNextHandler]).
Proof.
  unfold handler_in_effect, initialise.
  destruct (nextHandler scope) as [cached|] eqn:E.
  - intros [= <-]. exists scope, []. split; [reflexivity|].
    split; [exact E|]. split; [auto | discriminate].
  - destruct (getRunConfig outside) as [config|]; [|discriminate].
    intros ->. eexists _, _. split; [reflexivity|]. cbn.
    split; [reflexivity|]. split; [by intros [? ?]|]. eauto.
Qed.

Lemma initialise_rejects outside scope error :
  handler_in_effect outside scope = Throw error ->
  exists scope' events,
    initialise outside scope = (Throw error, scope', events)
    /\ nextHandler scope' = None
    /\ times is_AssignNextHandler events = 0
    /\ times is_AssignNextConfig events
       = (if config_resolves outside then 1 else 0)
    /\ times is_CallNextHandler events = 0
    /\ times is_LogResponse events = 0
    /\ times is_ConsoleError events = 0.
Proof.
  unfold handler_in_effect, initialise, config_resolves.
  destruct (nextHandler scope) as [cached|] eqn:E; [discriminate|].
  destruct (getRunConfig outside) as [config|].
  - intros ->. eexists _, _. split; [reflexivity|]. cbn. repeat split.
  - intros [= ->]. eexists _, _. split; [reflexivity|]. repeat split.
    exact E.
Qed.

Lemma callNextHandler_events scope req res outside :
  let events := (callNextHandler scope req res outside).2 in
  times is_AssignNextHandler events = 0
  /\ times is_AssignNextConfig events = 0
  /\ times is_SetRunConfig events = 0
  /\ times is_CallNextHandler events = 1
  /\ times is_LogResponse events = 0
  /\ times is_ConsoleError events <= 1.
Proof.
  cbn zeta. unfold callNextHandler.
  destruct (match nextHandler scope with Some _ => _ | None => _ end)
    as [[u|error] res']; unfold times; cbn; repeat split; lia.
Qed.

(** An invocation whose initialisation gets through: what it gives. *)
Lemma handler_completes request outside scope scope' events :
  initialise outside scope = (Normal tt, scope', events) ->
  handler request outside scope
  = (Normal
       (toComputeResponse
          (with_sr_headers
             (setVaryHeaders
                (setCacheControlHeaders
                   (sr_headers
                      (callNextHandler scope' (toReq request)
                         (toReqRes request).2 outside).1))
                (toReq request) (nextConfig scope'))
             (callNextHandler scope' (toReq request)
                (toReqRes request).2 outside).1)),
     scope',
     (events
      ++ (callNextHandler scope' (toReq request) (toReqRes request).2
            outside).2
      ++ [LogResponse
            (sr_headers
               (callNextHandler scope' (toReq request)
                  (toReqRes request).2 outside).1)
            (statusCode
               (callNextHandler scope' (toReq request)
                  (toReqRes request).2 outside).1)])%list).
Proof.
  intros Hinit. unfold handler. rewrite Hinit. unfold toReqRes. cbn [snd].
  destruct (callNextHandler _ _ _ _) as [res call_events]. reflexivity.
Qed.

(** An invocation that finds [nextHandler] set leaves both variables as
    they are and assigns neither. *)
Lemma handler_cached request outside scope cached :
  nextHandler scope = Some cached ->
  (handler request outside scope).1.2 = scope
  /\ times is_AssignNextHandler (handler request outside scope).2 = 0
  /\ times is_AssignNextConfig (handler request outside scope).2 = 0
  /\ times is_SetRunConfig (handler request outside scope).2 = 0.
Proof.
  intros E.
  rewrite (handler_completes _ _ _ _ _ (initialise_cached outside _ _ E)).
  cbn [fst snd app].
  destruct (callNextHandler_events scope (toReq request) (toReqRes request).2
              outside) as (Hh & Hc & Hs & _).
  rewrite !times_app, Hh, Hc, Hs. auto.
Qed.

Lemma serve_cached invocations scope cached :
  nextHandler scope = Some cached ->
  (serve invocations scope).1.2 = scope
  /\ Forall (fun events =>
               times is_AssignNextHandler events = 0
               /\ times is_AssignNextConfig events = 0)
       (serve invocations scope).2.
Proof.
  intros E. induction invocations as [|[request outside] rest IH]; cbn.
  - split; [reflexivity | constructor].
  - destruct (handler_cached request outside scope cached E)
      as (Hs & Hh & Hc & _).
    destruct (handler request outside scope) as [[response scope'] events].
    cbn in Hs, Hh, Hc. subst scope'.
    destruct IH as [IHs IHf].
    destruct (serve rest scope) as [[responses scope''] trace].
    cbn in *. split; [exact IHs | constructor; auto].
Qed.

(** Invocations whose initialisation does not get through: each rejects,
    [nextHandler] stays unset, and [nextConfig] is assigned by each one in
    which [getRunConfig] resolves. *)
Lemma serve_uninitialised (invocations : list (Request * Outside)) :
  forall scope,
    nextHandler scope = None ->
    Forall (fun invocation => initialisation_completes invocation.2 = false)
      invocations ->
    Forall2 (fun invocation events =>
               times is_AssignNextHandler events = 0
               /\ times is_AssignNextConfig events
                  = (if config_resolves invocation.2 then 1 else 0))
      invocations (serve invocations scope).2
    /\ Forall (fun response => exists error, response = Throw error)
         (serve invocations scope).1.1
    /\ nextHandler (serve invocations scope).1.2 = None.
Proof.
  induction invocations as [|[request outside] rest IH];
    intros scope Hunset Hfail; cbn [serve].
  - repeat split; [constructor | constructor | exact Hunset].
  - apply Forall_cons in Hfail as [Hfirst Hfail]. cbn [snd] in Hfirst.
    assert (Hthrow : exists error,
               handler_in_effect outside scope = Throw error).
    { unfold initialisation_completes, handler_in_effect in *.
      cbn [fresh_scope nextHandler] in Hfirst. rewrite Hunset.
      destruct (getRunConfig outside); [|eauto].
      destruct (getRequestHandlers _ _ _ _ _); [discriminate | eauto]. }
    destruct Hthrow as [error Hthrow].
    destruct (initialise_rejects _ _ _ Hthrow)
      as (scope' & events & Hinit & Hunset' & Hh & Hc & _).
    unfold handler. rewrite Hinit.
    destruct (IH scope' Hunset' Hfail) as (IHa & IHr & IHs).
    destruct (serve rest scope') as [[responses scope''] trace].
    cbn [fst snd] in *.
    split; [constructor; auto|]. split; [constructor; eauto | exact IHs].
Qed.

(** C3, as the code has it.  A runtime instance starts with both variables
    unset.  As long as the initialisation does not get through, each
    invocation rejects, [nextHandler] stays unset, and [nextConfig] is
    assigned again by every invocation in which [getRunConfig] resolves.
    The first invocation whose initialisation gets through assigns each
    variable once; every later invocation finds [nextHandler] set, assigns
    neither, and leaves both as they are. *)
Theorem caches_assigned_until_initialised
    (before : list (Request * Outside)) :
  Forall (fun invocation => initialisation_completes invocation.2 = false)
    before ->
  let failed := serve before fresh_scope in
  Forall2 (fun invocation events =>
             times is_AssignNextHandler events = 0
             /\ times is_AssignNextConfig events
                = (if config_resolves invocation.2 then 1 else 0))
    before failed.2
  /\ Forall (fun response => exists error, response = Throw error) failed.1.1
  /\ nextHandler failed.1.2 = None
  /\ forall (request : Request) (outside : Outside)
            (later : list (Request * Outside)),
       initialisation_completes outside = true ->
       let first := handler request outside failed.1.2 in
       let rest := serve later first.1.2 in
       times is_AssignNextHandler first.2 = 1
       /\ times is_AssignNextConfig first.2 = 1
       /\ is_Some (nextHandler first.1.2)
       /\ is_Some (nextConfig first.1.2)
       /\ rest.1.2 = first.1.2
       /\ Forall (fun events =>
                    times is_AssignNextHandler events = 0
                    /\ times is_AssignNextConfig events = 0) rest.2.
Proof.
  intros Hfail. cbn zeta.
  destruct (serve_uninitialised before fresh_scope eq_refl Hfail)
    as (Hassigned & Hrejected & Hunset).
  split; [exact Hassigned|]. split; [exact Hrejected|].
  split; [exact Hunset|].
  intros request outside later Hcompletes.
  set (scope := (serve before fresh_scope).1.2) in *.
  assert (Hcreated : exists created,
             handler_in_effect outside scope = Normal created).
  { unfold initialisation_completes, handler_in_effect in *.
    cbn [fresh_scope nextHandler] in Hcompletes. rewrite Hunset.
    destruct (getRunConfig outside); [|discriminate].
    destruct (getRequestHandlers _ _ _ _ _); [eauto | discriminate]. }
  destruct Hcreated as [created Hcreated].
  destruct (initialise_completes _ _ _ Hcreated)
    as (scope' & events & Hinit & Hset & _ & Hfresh).
  destruct (Hfresh Hunset) as [Hconfig ->].
  rewrite (handler_completes _ _ _ _ _ Hinit). cbn [fst snd].
  destruct (callNextHandler_events scope' (toReq request)
              (toReqRes request).2 outside) as (Hh & Hc & _).
  destruct (serve_cached later scope' created Hset) as [Hscope Hnone].
  rewrite !times_app, Hh, Hc, Hset.
  repeat split; eauto.
Qed.

(** C1, as the code has it.  When the initialisation gets through and the
    framework's handler throws, the error is caught and logged, the
    handler is not called again, and the invocation resolves.  When the
    handler threw before it wrote anything to [res] or ended it, the status
    of the response is 500 and its body is 'Internal Server Error'.  In any
    case [res.statusCode] is set to 500, which is what is logged, and the
    body is what the handler had written to [res], followed by 'Internal
    Server Error' unless the handler had ended [res]. *)
Theorem handler_error_sets_500_and_ends_response (request : Request)
    (outside : Outside) (scope : ModuleScope) (created : WorkerRequestHandler)
    (error : Error) (res : ServerResponse) :
  handler_in_effect outside scope = Normal created ->
  created (toReq request) (toReqRes request).2 outside = (Throw error, res) ->
  let run := handler request outside scope in
  exists response : ComputeResponse,
    run.1.1 = Normal response
    /\ (written res = "" -> writableEnded res = false ->
        status response = 500%Z
        /\ cr_body response = "Internal Server Error")
    /\ cr_body response
       = (if writableEnded res then written res
          else written res ++ "Internal Server Error")
    /\ times is_CallNextHandler run.2 = 1
    /\ times is_ConsoleError run.2 = 1
    /\ ConsoleError error ∈ run.2
    /\ LogResponse (sr_headers res) 500 ∈ run.2.
Proof.
  intros Hcreated Hthrow. cbn zeta.
  destruct (initialise_completes _ _ _ Hcreated)
    as (scope' & events & Hinit & Hset & Hcached & Hfresh).
  assert (Hevents : times is_CallNextHandler events = 0
                    /\ times is_ConsoleError events = 0).
  { destruct (nextHandler scope) eqn:E.
    - destruct Hcached as [_ ->]; eauto.
    - destruct (Hfresh eq_refl) as [_ ->]. auto. }
  destruct Hevents as [Hcalls Herrors].
  rewrite (handler_completes _ _ _ _ _ Hinit). cbn [fst snd].
  unfold callNextHandler. rewrite Hset, Hthrow. cbn [fst snd].
  eexists. split; [reflexivity|].
  unfold ServerResponse_end, with_statusCode. cbn [writableEnded].
  destruct (writableEnded res) eqn:Hended; cbn;
    rewrite !times_app, Hcalls, Herrors;
    (split; [by intros -> ?|]);
    (split; [reflexivity|]);
    (split; [reflexivity|]); (split; [reflexivity|]);
    split; apply elem_of_app; right;
    repeat first [apply list_elem_of_here | apply list_elem_of_further].
Qed.

(** ** Further properties of the server handler *)

(** X16.  When the framework's handler completes, the response is what it
    wrote: its status code and its body, and its headers after
    [setCacheControlHeaders] and then [setVaryHeaders], which gets the
    cached configuration.  No error is logged, and what is logged as the
    response are the status and the headers before the two helpers ran. *)
Theorem handler_returns_what_the_framework_wrote (request : Request)
    (outside : Outside) (scope : ModuleScope) (created : WorkerRequestHandler)
    (res : ServerResponse) :
  handler_in_effect outside scope = Normal created ->
  created (toReq request) (toReqRes request).2 outside = (Normal tt, res) ->
  let run := handler request outside scope in
  exists response : ComputeResponse,
    run.1.1 = Normal response
    /\ status response = statusCode res
    /\ cr_body response = written res
    /\ cr_headers response
       = setVaryHeaders (setCacheControlHeaders (sr_headers res))
           (toReq request) (nextConfig run.1.2)
    /\ times is_ConsoleError run.2 = 0
    /\ LogResponse (sr_headers res) (statusCode res) ∈ run.2.
Proof.
  intros Hcreated Hok. cbn zeta.
  destruct (initialise_completes _ _ _ Hcreated)
    as (scope' & events & Hinit & Hset & Hcached & Hfresh).
  assert (Herrors : times is_ConsoleError events = 0).
  { destruct (nextHandler scope) eqn:E.
    - destruct Hcached as [_ ->]; eauto.
    - destruct (Hfresh eq_refl) as [_ ->]. auto. }
  rewrite (handler_completes _ _ _ _ _ Hinit). cbn [fst snd].
  unfold callNextHandler. rewrite Hset, Hok. cbn [fst snd].
  eexists. split; [reflexivity|]. cbn.
  rewrite !times_app, Herrors. repeat split.
  apply elem_of_app. right.
  repeat first [apply list_elem_of_here | apply list_elem_of_further].
Qed.

(** X17.  An invocation either rejects before it calls the framework's
    handler, when the initialisation does not get through: then nothing is
    called or logged and [nextHandler] stays unset; or it calls that
    handler once, whether the handler completes or throws, logs one
    response, logs an error at most once, and, the helpers that set the
    headers returning, resolves. *)
Theorem invocation_calls_the_handler_once_or_rejects (request : Request)
    (outside : Outside) (scope : ModuleScope) :
  let run := handler request outside scope in
  match handler_in_effect outside scope with
  | Normal _ =>
      (exists response, run.1.1 = Normal response)
      /\ times is_CallNextHandler run.2 = 1
      /\ times is_LogResponse run.2 = 1
      /\ times is_ConsoleError run.2 <= 1
  | Throw error =>
      run.1.1 = Throw error
      /\ nextHandler scope = None
      /\ nextHandler run.1.2 = None
      /\ times is_CallNextHandler run.2 = 0
      /\ times is_LogResponse run.2 = 0
      /\ times is_ConsoleError run.2 = 0
  end.
Proof.
  cbn zeta.
  destruct (handler_in_effect outside scope) as [created|error] eqn:Heffect.
  - destruct (initialise_completes _ _ _ Heffect)
      as (scope' & events & Hinit & Hset & Hcached & Hfresh).
    assert (Hevents : times is_CallNextHandler events = 0
                      /\ times is_LogResponse events = 0
                      /\ times is_ConsoleError events = 0).
    { destruct (nextHandler scope) eqn:E.
      - destruct Hcached as [_ ->]; eauto.
      - destruct (Hfresh eq_refl) as [_ ->]. auto. }
    destruct Hevents as (Hc & Hl & He).
    rewrite (handler_completes _ _ _ _ _ Hinit). cbn [fst snd].
    destruct (callNextHandler_events scope' (toReq request)
                (toReqRes request).2 outside) as (_ & _ & _ & Hc' & Hl' & He').
    destruct (callNextHandler scope' (toReq request) (toReqRes request).2
                outside) as [res call_events].
    cbn [fst snd] in *.
    rewrite !times_app, Hc, Hl, He, Hc', Hl'.
    split; [eexists; reflexivity|]. unfold times in *. cbn.
    repeat split; lia.
  - destruct (initialise_rejects _ _ _ Heffect)
      as (scope' & events & Hinit & Hunset & _ & _ & Hc & Hl & He).
    unfold handler. rewrite Hinit. cbn [fst snd]. repeat split; auto.
    unfold handler_in_effect in Heffect.
    by destruct (nextHandler scope).
Qed.


End ServerProperties.

(** ** Properties of [buildResponse] *)

Section BuildResponseProperties.

Context {platform : Platform} {helpers : Helpers}.

(** Runs the plumbing of [M] and the record projections, and nothing else. *)
Ltac run :=
  cbv [buildResponse plainResponse middlewareResponse lift
       mbind M_bind mret M_ret get_result set_result get_request set_request
       emit debug throw request_headers_set new_URL fetch arrayBuffer
       context_next body_sent];
  cbn [w_request w_result w_events fst snd headers_of body_of with_headers
       new_Response new_Request response_with_headers request_with_headers
       request_body_used res_headers res_body req_headers req_url req_method
       req_body req_bodyUsed].

Lemma truthy_Some (v : option string) (s : string) :
  v = Some s -> s ≠ "" -> truthy v = Some s.
Proof.
  intros -> Hne. unfold truthy. destruct (decide (s = "")); congruence.
Qed.

Lemma truthy_inv (v : option string) (s : string) :
  truthy v = Some s -> v = Some s /\ s ≠ "".
Proof.
  unfold truthy. destruct v as [s'|]; [|discriminate].
  destruct (decide (s' = "")); [discriminate|].
  intros [= ->]. auto.
Qed.

(** *** [new Headers(entries)] of filtered entries *)

Lemma filter_fst_sublist {A B : Type} (p : A * B -> bool) (l : list (A * B)) :
  sublist (List.filter p l).*1 l.*1.
Proof.
  induction l as [|x l IH]; cbn; [constructor|].
  destruct (p x); cbn; [by apply sublist_skip | by apply sublist_cons].
Qed.

Lemma of_entries_lookup_from (l : list (string * string)) :
  forall (acc : Headers) (k : string),
    NoDup l.*1 ->
    (forall k', k' ∈ l.*1 -> acc !! k' = None) ->
    foldl (fun h kv => Hdr.append kv.1 kv.2 h) acc l !! k
    = match (list_to_map l : Headers) !! k with
      | Some v => Some v
      | None => acc !! k
      end.
Proof.
  induction l as [|[k0 v0] l IH]; intros acc k Hnd Hfresh.
  - cbn. by rewrite lookup_empty.
  - rewrite fmap_cons in Hnd. apply NoDup_cons in Hnd as [Hk0 Hnd].
    cbn [foldl fst snd] in *.
    assert (Happ : Hdr.append k0 v0 acc = <[k0:=v0]> acc).
    { unfold Hdr.append. rewrite (Hfresh k0); [done|]. rewrite fmap_cons. left. }
    rewrite Happ, IH; [|done|].
    + rewrite list_to_map_cons. cbn [fst snd].
      destruct (decide (k0 = k)) as [<-|Hk].
      * assert ((list_to_map l : Headers) !! k0 = None) as ->
          by (by apply not_elem_of_list_to_map_1).
        by rewrite !lookup_insert_eq.
      * rewrite !lookup_insert_ne by done. done.
    + intros k' Hk'. rewrite lookup_insert_ne.
      * apply Hfresh. rewrite fmap_cons. by right.
      * intros ->. done.
Qed.

(** The headers built from the entries that pass a test are the headers
    that pass it, with their values. *)
Lemma of_entries_filter_lookup (p : string * string -> bool) (h : Headers)
    (k : string) :
  Hdr.of_entries (List.filter p (Hdr.entries h)) !! k
  = match h !! k with
    | Some v => if p (k, v) then Some v else None
    | None => None
    end.
Proof.
  unfold Hdr.of_entries, Hdr.entries.
  assert (Hnd : NoDup (List.filter p (map_to_list h)).*1).
  { apply (sublist_NoDup _ (map_to_list h).*1);
      [apply NoDup_fst_map_to_list | apply filter_fst_sublist]. }
  rewrite of_entries_lookup_from; [|done|by intros; apply lookup_empty].
  rewrite lookup_empty.
  destruct (list_to_map _ !! k) as [v|] eqn:E.
  - apply elem_of_list_to_map in E; [|done].
    apply list_elem_of_In, filter_In in E as [Hin Hp].
    apply list_elem_of_In, elem_of_map_to_list in Hin.
    by rewrite Hin, Hp.
  - destruct (h !! k) as [v|] eqn:Ek; [|done].
    destruct (p (k, v)) eqn:Hp; [|done].
    apply not_elem_of_list_to_map in E. exfalso. apply E.
    apply list_elem_of_fmap. exists (k, v). split; [done|].
    apply list_elem_of_In, filter_In. split; [|done].
    by apply list_elem_of_In, elem_of_map_to_list.
Qed.

Lemma fetches_app (l1 l2 : list Event) :
  fetches (l1 ++ l2)%list = (fetches l1 ++ fetches l2)%list.
Proof.
  induction l1 as [|e l1 IH]; [done|].
  destruct e; cbn; by rewrite ?IH.
Qed.

Lemma continues_app (l1 l2 : list Event) :
  continues (l1 ++ l2)%list = continues l1 + continues l2.
Proof.
  induction l1 as [|e l1 IH]; [done|]. destruct e; cbn; by rewrite ?IH.
Qed.

Lemma middleware_nexts_app (l1 l2 : list Event) :
  middleware_nexts (l1 ++ l2)%list = middleware_nexts l1 + middleware_nexts l2.
Proof.
  induction l1 as [|e l1 IH]; [done|]. destruct e; cbn; by rewrite ?IH.
Qed.

Lemma body_reads_app (l1 l2 : list Event) :
  body_reads (l1 ++ l2)%list = body_reads l1 + body_reads l2.
Proof.
  induction l1 as [|e l1 IH]; [done|]. destruct e; cbn; by rewrite ?IH.
Qed.

(** What was fetched and how often the origin was asked, after some more
    events. *)
Ltac count_calls :=
  rewrite ?fetches_app, ?continues_app, ?body_reads_app;
  cbn [fetches continues body_reads app Nat.add];
  rewrite ?app_nil_r, ?Nat.add_0_r.

Lemma has_set_ne (name name' value : string) (h : Headers) :
  name ≠ name' -> Hdr.has name' (Hdr.set name value h) = Hdr.has name' h.
Proof.
  intros Hne. unfold Hdr.has, Hdr.set. by rewrite lookup_insert_ne.
Qed.

Lemma get_set_eq (name value : string) (h : Headers) :
  Hdr.get name (Hdr.set name value h) = Some value.
Proof. unfold Hdr.get, Hdr.set. by rewrite lookup_insert_eq. Qed.

Lemma get_set_ne (name name' value : string) (h : Headers) :
  name ≠ name' -> Hdr.get name' (Hdr.set name value h) = Hdr.get name' h.
Proof.
  intros Hne. unfold Hdr.get, Hdr.set. by rewrite lookup_insert_ne.
Qed.

Lemma get_delete_eq (name : string) (h : Headers) :
  Hdr.get name (Hdr.delete name h) = None.
Proof. unfold Hdr.get, Hdr.delete. by rewrite lookup_delete_eq. Qed.

Lemma get_delete_ne (name name' : string) (h : Headers) :
  name ≠ name' -> Hdr.get name' (Hdr.delete name h) = Hdr.get name' h.
Proof.
  intros Hne. unfold Hdr.get, Hdr.delete. by rewrite lookup_delete_ne.
Qed.

(** The start of a run on a plain response, up to line 110. *)
Lemma buildResponse_plain context nextConfig requestLocale request r events :
  buildResponse context nextConfig requestLocale
    (mkWorld request (IsResponse r) events)
  = plainResponse context nextConfig requestLocale
      (mkResponse (overridden request r).2 (res_body r))
      (mkWorld (request_with_headers (overridden request r).1 request)
         (IsResponse (response_with_headers (overridden request r).2 r))
         (events ++
          [Debug [("is_nextresponse_next",
                   string_of_bool
                     (Hdr.has "x-middleware-next" (res_headers r)))]
             "Building Next.js response"])).
Proof. reflexivity. Qed.

(** C9, as the code has it.  A plain response carries an
    'x-middleware-rewrite' header with a value that is not empty, which is
    what [if (rewrite)] tests; its target, resolved against the request
    URL, prints as the request URL does.  Then [buildResponse] returns
    nothing, having fetched nothing and not called [context.next()]. *)
Theorem rewrite_to_same_url_returns_nothing
    context nextConfig requestLocale request r events
    (rewrite : string) (rewriteUrl baseUrl : URL) :
  let run := buildResponse context nextConfig requestLocale
               (mkWorld request (IsResponse r) events) in
  Hdr.get "x-middleware-rewrite" (overridden request r).2 = Some rewrite ->
  rewrite ≠ "" ->
  URL_new rewrite (Some (req_url request)) = Some rewriteUrl ->
  URL_new (req_url request) None = Some baseUrl ->
  URL_toString rewriteUrl = URL_toString baseUrl ->
  run.1 = Normal None
  /\ fetches (w_events run.2) = fetches events
  /\ continues (w_events run.2) = continues events.
Proof.
  intros w' Hrw Hne Hu Hb Heq. subst w'.
  rewrite buildResponse_plain. run.
  rewrite (truthy_Some _ _ Hrw Hne). run.
  rewrite Hu. run. rewrite Hb. run.
  destruct (decide _); [|done]. run.
  split; [reflexivity|]. by count_calls.
Qed.

(** C10.  On a cross-origin rewrite the request that is fetched goes to the
    rewrite target, it is the only request fetched, it has no header whose
    name starts with 'x-nf-', and every other header of the request is in it
    with the value it has in the request. *)
Theorem proxy_request_has_no_internal_headers
    context nextConfig requestLocale request r events
    (rewrite : string) (rewriteUrl baseUrl originalUrl : URL) :
  let run := buildResponse context nextConfig requestLocale
               (mkWorld request (IsResponse r) events) in
  Hdr.get "x-middleware-rewrite" (overridden request r).2 = Some rewrite ->
  rewrite ≠ "" ->
  URL_new rewrite (Some (req_url request)) = Some rewriteUrl ->
  URL_new (req_url request) None = Some baseUrl ->
  URL_new (req_url request) (Some "http://n") = Some originalUrl ->
  URL_toString rewriteUrl ≠ URL_toString baseUrl ->
  URL_origin rewriteUrl ≠ URL_origin baseUrl ->
  exists (proxyRequest : Request) (res : Response),
    run.1 = Normal (Some (addMiddlewareHeaders (fetch_response proxyRequest)
                            res))
    /\ fetches (w_events run.2) = (fetches events ++ [proxyRequest])%list
    /\ req_url proxyRequest = URL_toString rewriteUrl
    /\ req_method proxyRequest = req_method request
    /\ (forall name, startsWith name "x-nf-" = true ->
          req_headers proxyRequest !! name = None)
    /\ (forall name, startsWith name "x-nf-" = false ->
          req_headers proxyRequest !! name = (overridden request r).1 !! name).
Proof.
  intros w' Hrw Hne Hu Hb Ho Hstr Horigin. subst w'.
  rewrite buildResponse_plain. run.
  rewrite (truthy_Some _ _ Hrw Hne). run.
  rewrite Hu. run. rewrite Hb. run.
  destruct (decide (URL_toString rewriteUrl = URL_toString baseUrl));
    [done|].
  rewrite Ho. run.
  destruct (decide (URL_origin rewriteUrl ≠ URL_origin baseUrl)); [|done].
  assert (Hdrop : forall name, startsWith name "x-nf-" = true ->
    Hdr.of_entries
      (List.filter (fun kv => negb (startsWith kv.1 "x-nf-"))
         (Hdr.entries
            (Hdr.set "x-nf-next-middleware" "skip" (overridden request r).1)))
    !! name = None).
  { intros name Hname. rewrite of_entries_filter_lookup. cbn [fst].
    rewrite Hname. by destruct (_ !! name). }
  assert (Hkeep : forall name, startsWith name "x-nf-" = false ->
    Hdr.of_entries
      (List.filter (fun kv => negb (startsWith kv.1 "x-nf-"))
         (Hdr.entries
            (Hdr.set "x-nf-next-middleware" "skip" (overridden request r).1)))
    !! name = (overridden request r).1 !! name).
  { intros name Hname. rewrite of_entries_filter_lookup. cbn [fst].
    rewrite Hname. unfold Hdr.set. rewrite lookup_insert_ne.
    - by destruct (_ !! name).
    - intros <-. discriminate Hname. }
  destruct (match req_body request with
            | Some _ => negb (req_bodyUsed request)
            | None => false
            end); run;
    eexists _, _; (split; [reflexivity|]);
    rewrite !fetches_app; cbn [fetches];
    rewrite ?app_nil_r; (split; [reflexivity|]);
    cbn [req_url req_method req_headers]; auto.
Qed.

(** C5, as the code has it.  A plain response carries a non-empty
    'x-middleware-rewrite' whose target differs from the request URL and
    has its origin.  The request keeps its URL and gets the two headers the
    code sets on it.  When its body was read already, [new Request] refuses
    it: the run throws and nothing is fetched.  Otherwise one request is
    fetched: it goes to the rewrite URL, whose path is the data path for a
    data request, with the method, the headers and the body of the request;
    and what is returned is what [addMiddlewareHeaders] makes of the fetched
    response and the middleware response, on which 'x-middleware-rewrite' is
    the target relativized against the request URL, 'x-nextjs-rewrite' is
    the same for a data request, and every other header and the body are as
    they were. *)
Theorem same_origin_rewrite_is_served_from_target
    context nextConfig requestLocale request r events
    (rewrite : string) (rewriteUrl baseUrl originalUrl : URL) :
  let run := buildResponse context nextConfig requestLocale
               (mkWorld request (IsResponse r) events) in
  let isDataReq := Hdr.has "x-nextjs-data" (overridden request r).1 in
  let target :=
    if isDataReq
    then URL_set_pathname
           (rewriteDataPath (URL_pathname originalUrl)
              (URL_pathname rewriteUrl) (config_basePath nextConfig))
           rewriteUrl
    else rewriteUrl in
  let marked :=
    Hdr.set "x-middleware-rewrite" rewrite
      (Hdr.set "x-nf-next-middleware" "skip" (overridden request r).1) in
  let relative := relativizeURL rewrite (req_url request) in
  let fetched :=
    mkRequest (URL_toString target) (req_method request) marked
      (req_body request) false in
  Hdr.get "x-middleware-rewrite" (overridden request r).2 = Some rewrite ->
  rewrite ≠ "" ->
  URL_new rewrite (Some (req_url request)) = Some rewriteUrl ->
  URL_new (req_url request) None = Some baseUrl ->
  URL_new (req_url request) (Some "http://n") = Some originalUrl ->
  URL_toString rewriteUrl ≠ URL_toString baseUrl ->
  URL_origin rewriteUrl = URL_origin baseUrl ->
  req_url (w_request run.2) = req_url request
  /\ req_headers (w_request run.2) = marked
  /\ continues (w_events run.2) = continues events
  /\ if has_used_body request
     then run.1 = Throw TypeError
          /\ fetches (w_events run.2) = fetches events
     else exists res : Response,
            run.1 = Normal (Some (addMiddlewareHeaders
                                    (fetch_response fetched) res))
            /\ fetches (w_events run.2) = (fetches events ++ [fetched])%list
            /\ req_bodyUsed (w_request run.2)
               = req_bodyUsed request || has_body request
            /\ res_body res = res_body r
            /\ Hdr.get "x-middleware-rewrite" (res_headers res)
               = Some relative
            /\ Hdr.get "x-nextjs-rewrite" (res_headers res)
               = (if isDataReq then Some relative
                  else Hdr.get "x-nextjs-rewrite" (overridden request r).2)
            /\ forall name,
                 name ≠ "x-middleware-rewrite" -> name ≠ "x-nextjs-rewrite" ->
                 Hdr.get name (res_headers res)
                 = Hdr.get name (overridden request r).2.
Proof.
  intros w' isDataReq target marked relative fetched
    Hrw Hne Hu Hb Ho Hstr Horigin.
  subst w' fetched relative marked target isDataReq.
  rewrite buildResponse_plain. run.
  rewrite (truthy_Some _ _ Hrw Hne). run.
  rewrite Hu. run. rewrite Hb. run.
  destruct (decide (URL_toString rewriteUrl = URL_toString baseUrl));
    [done|].
  rewrite Ho. run.
  destruct (decide (URL_origin rewriteUrl ≠ URL_origin baseUrl)); [done|].
  run. rewrite has_set_ne by done.
  unfold has_used_body, has_body, new_Request.
  cbn [request_with_headers req_body req_bodyUsed req_method req_headers
       req_url].
  destruct (req_body request) as [body|] eqn:Hbody;
    [destruct (req_bodyUsed request) eqn:Hused|]; run; rewrite ?Hbody; run;
    cbn [andb];
    (split; [reflexivity|]); (split; [reflexivity|]);
    (split; [by count_calls|]).
  - split; [reflexivity | by count_calls].
  - eexists. split; [reflexivity|]. split; [by count_calls|].
    cbn [req_bodyUsed request_body_used request_with_headers].
    split; [reflexivity|].
    cbn [response_with_headers res_headers res_body].
    split; [by destruct (Hdr.has _ _)|]. split; [apply get_set_eq|].
    split.
    + rewrite (get_set_ne "x-middleware-rewrite" "x-nextjs-rewrite") by done.
      destruct (Hdr.has _ _); cbn [response_with_headers res_headers];
        [apply get_set_eq | reflexivity].
    + intros name Hn1 Hn2. rewrite get_set_ne by done.
      destruct (Hdr.has _ _); cbn [response_with_headers res_headers];
        [by apply get_set_ne | reflexivity].
  - eexists. split; [reflexivity|]. split; [by count_calls|].
    cbn [req_bodyUsed request_body_used request_with_headers].
    rewrite orb_false_r. split; [reflexivity|].
    cbn [response_with_headers res_headers res_body].
    split; [by destruct (Hdr.has _ _)|]. split; [apply get_set_eq|].
    split.
    + rewrite (get_set_ne "x-middleware-rewrite" "x-nextjs-rewrite") by done.
      destruct (Hdr.has _ _); cbn [response_with_headers res_headers];
        [apply get_set_eq | reflexivity].
    + intros name Hn1 Hn2. rewrite get_set_ne by done.
      destruct (Hdr.has _ _); cbn [response_with_headers res_headers];
        [by apply get_set_ne | reflexivity].
Qed.

(** *** The redirect block *)

Lemma localeRedirect_headers url nextConfig requestLocale res redirect res1 :
  localeRedirect url nextConfig requestLocale res = Normal (redirect, res1) ->
  res_body res1 = res_body res
  /\ Hdr.get "location" (res_headers res1) = redirect
  /\ forall name, name ≠ "location" ->
       Hdr.get name (res_headers res1) = Hdr.get name (res_headers res).
Proof.
  unfold localeRedirect.
  destruct (truthy (Hdr.get "location" (res_headers res))) as [target|];
    [|intros [= <- <-]; auto].
  destruct (truthy requestLocale) as [locale|]; [|intros [= <- <-]; auto].
  destruct (URL_new target (Some url)) as [redirectUrl|]; [|discriminate].
  destruct (_ && _); intros [= <- <-]; [|auto].
  cbn [response_with_headers res_body res_headers].
  split; [reflexivity|]. split; [apply get_set_eq|].
  intros name Hname. by apply get_set_ne.
Qed.

(** C7, as the code has it.  A plain response without a rewrite has
    'x-middleware-next' equal to '1'.  When the redirect block throws (a
    redirect target that does not parse, with a locale of the request), the
    run throws and [context.next()] is not called.  Otherwise the run calls
    [context.next()] once, fetches nothing, and returns what
    [addMiddlewareHeaders] makes of that response and the middleware
    response [res], not [res] itself.  [res] has the body of the middleware
    response, no 'x-middleware-next', and every other header as it was,
    apart from the two that the redirect blocks set: 'location' is the
    redirect as the locale block left it, and is gone for a data request
    that is redirected; 'x-nextjs-redirect' is touched for a data request
    only, and is then the relativized redirect, or else its own value,
    normalized as a data URL when not empty. *)
Theorem middleware_next_continues_to_origin
    context nextConfig requestLocale request r events :
  let run := buildResponse context nextConfig requestLocale
               (mkWorld request (IsResponse r) events) in
  let isDataReq := Hdr.has "x-nextjs-data" (overridden request r).1 in
  let sent := (overridden request r).2 in
  truthy (Hdr.get "x-middleware-rewrite" sent) = None ->
  Hdr.get "x-middleware-next" sent = Some "1" ->
  match localeRedirect (req_url request) nextConfig requestLocale
          (mkResponse sent (res_body r)) with
  | Throw error =>
      run.1 = Throw error
      /\ continues (w_events run.2) = continues events
      /\ fetches (w_events run.2) = fetches events
  | Normal (redirect, _) =>
      let router :=
        match truthy redirect with
        | Some target => Some (relativizeURL target (req_url request))
        | None => Hdr.get "x-nextjs-redirect" sent
        end in
      exists res : Response,
        run.1 = Normal (Some (addMiddlewareHeaders (next context) res))
        /\ continues (w_events run.2) = S (continues events)
        /\ fetches (w_events run.2) = fetches events
        /\ res_body res = res_body r
        /\ Hdr.get "x-middleware-next" (res_headers res) = None
        /\ (forall name,
              name ≠ "x-middleware-next" -> name ≠ "location" ->
              name ≠ "x-nextjs-redirect" ->
              Hdr.get name (res_headers res) = Hdr.get name sent)
        /\ Hdr.get "location" (res_headers res)
           = (if isDataReq
              then match truthy redirect with
                   | Some _ => None
                   | None => redirect
                   end
              else redirect)
        /\ Hdr.get "x-nextjs-redirect" (res_headers res)
           = (if isDataReq
              then match truthy router with
                   | Some nextRedirect => Some (normalizeDataUrl nextRedirect)
                   | None => router
                   end
              else Hdr.get "x-nextjs-redirect" sent)
  end.
Proof.
  intros w' isDataReq sent Hrw Hnext. subst w' isDataReq sent.
  rewrite buildResponse_plain. run. rewrite Hrw.
  destruct (localeRedirect _ _ _ _) as [[redirect res1]|error] eqn:Hredirect;
    run.
  2: { split; [reflexivity|]. by count_calls. }
  apply localeRedirect_headers in Hredirect as (Hbody & Hlocation & Hother).
  cbn [fst snd res_body res_headers] in *.
  rewrite has_set_ne by done.
  assert (Hsame : forall (A : Type) (o : option A) (x : Response),
             match o with Some _ => x | None => x end = x)
    by (by intros A []).
  destruct (Hdr.has "x-nextjs-data" (overridden request r).1) eqn:Hdata;
    rewrite ?Hsame;
    [destruct (truthy redirect) as [target|] eqn:Htarget|];
    cbn [response_with_headers res_headers res_body];
    rewrite ?get_set_eq, ?(Hother "x-nextjs-redirect") by done.
  1: destruct (truthy (Some (relativizeURL target (req_url request))))
       as [nextRedirect|] eqn:Hrouter.
  3: destruct (truthy (Hdr.get "x-nextjs-redirect" (overridden request r).2))
       as [nextRedirect|] eqn:Hrouter.
  all: cbn [response_with_headers res_headers res_body];
    rewrite ?(get_set_ne "x-nextjs-redirect" "x-middleware-next"),
      ?(get_delete_ne "location" "x-middleware-next"),
      ?(Hother "x-middleware-next"), ?Hnext by done;
    (destruct (decide (Some "1" = Some "1")); [|done]); run;
    eexists; (split; [reflexivity|]);
    (split; [count_calls; lia|]); (split; [by count_calls|]);
    cbn [response_with_headers res_headers res_body];
    (split; [exact Hbody|]); (split; [apply get_delete_eq|]);
    (split;
     [intros name Hn1 Hn2 Hn3;
      rewrite get_delete_ne, ?get_set_ne, ?get_delete_ne by done;
      by apply Hother|]);
    rewrite !(get_delete_ne "x-middleware-next") by done;
    rewrite ?get_set_eq,
      ?(get_set_ne "x-nextjs-redirect" "location"), ?get_delete_eq,
      ?(Hother "x-nextjs-redirect") by done;
    (split; [first [reflexivity | exact Hlocation] | reflexivity]).
Qed.




(** *** How many requests a run fetches *)

(** Runs the plumbing of [buildResponse] and leaves the two paths folded. *)
Ltac run_start :=
  cbv [buildResponse mbind M_bind mret M_ret get_result set_result
       get_request set_request emit debug];
  cbn [w_request w_result w_events fst snd headers_of body_of with_headers
       new_Response response_with_headers request_with_headers
       res_headers res_body req_headers req_url req_method req_body
       req_bodyUsed].

Lemma middlewareResponse_fetches (response : MiddlewareResponse) (w : World) :
  fetches (w_events (middlewareResponse response w).2) = fetches (w_events w).
Proof.
  run.
  repeat match goal with
         | |- context [match ?x with _ => _ end] => destruct x
         end; run; reflexivity.
Qed.

(** What the plain path fetches: nothing, or one request, and then for a
    rewrite whose target does not print as the request URL does. *)
Lemma plainResponse_fetches context nextConfig requestLocale res (w : World) :
  let run := plainResponse context nextConfig requestLocale res w in
  w_result run.2 = w_result w
  /\ exists fs : list Request,
       fetches (w_events run.2) = (fetches (w_events w) ++ fs)%list
       /\ (fs = []
           \/ exists q rewrite rewriteUrl baseUrl,
                fs = [q]
                /\ Hdr.get "x-middleware-rewrite" (res_headers res)
                   = Some rewrite
                /\ rewrite ≠ ""
                /\ URL_new rewrite (Some (req_url (w_request w)))
                   = Some rewriteUrl
                /\ URL_new (req_url (w_request w)) None = Some baseUrl
                /\ URL_toString rewriteUrl ≠ URL_toString baseUrl
                /\ (URL_origin rewriteUrl ≠ URL_origin baseUrl ->
                    req_url q = URL_toString rewriteUrl)
                /\ (URL_origin rewriteUrl = URL_origin baseUrl ->
                    req_method q = req_method (w_request w)
                    /\ req_body q = req_body (w_request w)
                    /\ (req_url q = URL_toString rewriteUrl
                        \/ exists data_path,
                             req_url q
                             = URL_toString
                                 (URL_set_pathname data_path rewriteUrl)))).
Proof.
  cbn zeta. run.
  destruct (truthy (Hdr.get "x-middleware-rewrite" (res_headers res)))
    as [rewrite|] eqn:Hrw.
  - apply truthy_inv in Hrw as [Hrw Hne]. run.
    destruct (URL_new rewrite (Some (req_url (w_request w))))
      as [rewriteUrl|] eqn:Hu; run.
    2: { split; [done|]. exists []. rewrite fetches_app, app_nil_r.
         cbn. rewrite app_nil_r. auto. }
    destruct (URL_new (req_url (w_request w)) None)
      as [baseUrl|] eqn:Hb; run.
    2: { split; [done|]. exists []. rewrite fetches_app, app_nil_r.
         cbn. rewrite app_nil_r. auto. }
    destruct (decide (URL_toString rewriteUrl = URL_toString baseUrl))
      as [Hsame|Hdiff]; run.
    { split; [done|]. exists []. rewrite !fetches_app, app_nil_r.
      cbn. rewrite !app_nil_r. auto. }
    destruct (URL_new (req_url (w_request w)) (Some "http://n"))
      as [originalUrl|]; run.
    2: { split; [done|]. exists []. rewrite fetches_app, app_nil_r.
         cbn. rewrite app_nil_r. auto. }
    destruct (decide (URL_origin rewriteUrl ≠ URL_origin baseUrl))
      as [Hcross|Hsame]; run.
    + destruct (match req_body (w_request w) with
                | Some _ => negb (req_bodyUsed (w_request w))
                | None => false
                end); run;
        (split; [done|]); eexists [_];
        rewrite !fetches_app; cbn [fetches]; rewrite ?app_nil_r;
        (split; [reflexivity|]); right;
        eexists _, rewrite, rewriteUrl, baseUrl;
        repeat split; auto; first [done | congruence].
    + unfold new_Request.
      cbn [request_with_headers req_body req_bodyUsed req_method req_headers
           req_url].
      destruct (req_body (w_request w)) as [body|] eqn:Hbody;
        [destruct (req_bodyUsed (w_request w)) eqn:Hused|];
        run; rewrite ?Hbody; run.
      1: { split; [done|]. exists []. count_calls. auto. }
      all: split; [done|]; eexists [_];
        rewrite !fetches_app; cbn [fetches]; rewrite ?app_nil_r;
        (split; [reflexivity|]); right;
        eexists _, rewrite, rewriteUrl, baseUrl;
        repeat split; auto; try first [done | congruence];
        cbn [req_url];
        (destruct (Hdr.has "x-nextjs-data" _); [right; eexists|left];
         reflexivity).
  - destruct (localeRedirect _ _ _ _) as [[redirect res1]|]; run.
    2: { split; [done|]. exists []. rewrite app_nil_r. auto. }
    destruct (decide _); run; (split; [done|]); exists [];
      rewrite ?fetches_app; cbn [fetches]; rewrite ?app_nil_r; auto.
Qed.

(** C2, as the code has it.  A run fetches at most one request.  When it
    fetches one, [result.response] is not a middleware response and carries a
    non-empty 'x-middleware-rewrite' whose target does not print as the
    request URL does: across origins the request goes to the target, within
    the origin it is the original request that is fetched. *)
Theorem at_most_one_fetch_and_only_for_a_rewrite
    context nextConfig requestLocale (w : World) :
  let run := buildResponse context nextConfig requestLocale w in
  exists fs : list Request,
    fetches (w_events run.2) = (fetches (w_events w) ++ fs)%list
    /\ length fs <= 1
    /\ forall q, q ∈ fs ->
         exists rewrite rewriteUrl baseUrl,
           isMiddlewareResponse (w_result run.2) = false
           /\ Hdr.get "x-middleware-rewrite" (headers_of (w_result run.2))
              = Some rewrite
           /\ rewrite ≠ ""
           /\ URL_new rewrite (Some (req_url (w_request w))) = Some rewriteUrl
           /\ URL_new (req_url (w_request w)) None = Some baseUrl
           /\ URL_toString rewriteUrl ≠ URL_toString baseUrl
           /\ (URL_origin rewriteUrl ≠ URL_origin baseUrl ->
               req_url q = URL_toString rewriteUrl)
           /\ (URL_origin rewriteUrl = URL_origin baseUrl ->
               req_method q = req_method (w_request w)
               /\ req_body q = req_body (w_request w)
               /\ (req_url q = URL_toString rewriteUrl
                   \/ exists data_path,
                        req_url q
                        = URL_toString
                            (URL_set_pathname data_path rewriteUrl))).
Proof.
  cbn zeta.
  assert (Hplain : forall res (w0 : World) (evs : list Event),
    isMiddlewareResponse (w_result w0) = false ->
    res_headers res = headers_of (w_result w0) ->
    req_url (w_request w0) = req_url (w_request w) ->
    req_method (w_request w0) = req_method (w_request w) ->
    req_body (w_request w0) = req_body (w_request w) ->
    fetches (w_events w0) = fetches (w_events w) ->
    let run := plainResponse context nextConfig requestLocale res w0 in
    exists fs : list Request,
      fetches (w_events run.2) = (fetches (w_events w) ++ fs)%list
      /\ length fs <= 1
      /\ forall q, q ∈ fs ->
           exists rewrite rewriteUrl baseUrl,
             isMiddlewareResponse (w_result run.2) = false
             /\ Hdr.get "x-middleware-rewrite" (headers_of (w_result run.2))
                = Some rewrite
             /\ rewrite ≠ ""
             /\ URL_new rewrite (Some (req_url (w_request w)))
                = Some rewriteUrl
             /\ URL_new (req_url (w_request w)) None = Some baseUrl
             /\ URL_toString rewriteUrl ≠ URL_toString baseUrl
             /\ (URL_origin rewriteUrl ≠ URL_origin baseUrl ->
                 req_url q = URL_toString rewriteUrl)
             /\ (URL_origin rewriteUrl = URL_origin baseUrl ->
                 req_method q = req_method (w_request w)
                 /\ req_body q = req_body (w_request w)
                 /\ (req_url q = URL_toString rewriteUrl
                     \/ exists data_path,
                          req_url q
                          = URL_toString
                              (URL_set_pathname data_path rewriteUrl)))).
  { intros res w0 evs Hkind Hheaders Hurl Hmethod Hbody Hevents. cbn zeta.
    destruct (plainResponse_fetches context nextConfig requestLocale res w0)
      as (Hresult & fs & Hfs & Hcases).
    exists fs. rewrite Hfs, Hevents, Hresult. split; [reflexivity|].
    destruct Hcases as [->|(q & rw & ru & bu & -> & Hcase)].
    - split; [cbn; lia|]. intros q Hq. by apply elem_of_nil in Hq.
    - split; [cbn; lia|]. intros q' Hq'.
      apply list_elem_of_singleton in Hq' as ->.
      destruct Hcase as (Hrw & Hne & Hu & Hb & Hdiff & Hcross & Hsame).
      exists rw, ru, bu. rewrite <- Hheaders, <- Hurl, <- Hmethod, <- Hbody.
      repeat split; auto; by apply Hsame. }
  assert (Hmiddleware : forall response (w0 : World),
    fetches (w_events w0) = fetches (w_events w) ->
    exists fs : list Request,
      fetches (w_events (middlewareResponse response w0).2)
      = (fetches (w_events w) ++ fs)%list
      /\ length fs <= 1
      /\ forall q, q ∈ fs -> False).
  { intros response w0 Hevents. exists [].
    rewrite middlewareResponse_fetches, Hevents, app_nil_r.
    split; [reflexivity|]. split; [cbn; lia|].
    intros q Hq. by apply elem_of_nil in Hq. }
  destruct w as [request result events].
  destruct result as [h b [h' b' n'|response|r]|response|r]; run_start.
  all: try (apply (Hplain _ _ []); cbn; rewrite ?fetches_app; cbn;
            rewrite ?app_nil_r; reflexivity).
  all: match goal with
       | |- context [middlewareResponse ?m ?w0] =>
           destruct (Hmiddleware m w0) as (fs & Hfs & Hlen & Hnone)
       end;
    [cbn; rewrite ?fetches_app; cbn; by rewrite ?app_nil_r|];
    exists fs; split; [exact Hfs|]; split; [exact Hlen|];
    intros q Hq; destruct (Hnone q Hq).
Qed.

(** *** Data transforms *)

Lemma string_app_assoc (a b c : string) : (a ++ b) ++ c = a ++ (b ++ c).
Proof.
  induction a as [|x a IH]; [done|].
  change (String x ((a ++ b) ++ c) = String x (a ++ (b ++ c))).
  by rewrite IH.
Qed.

Lemma string_app_nil_r (a : string) : a ++ "" = a.
Proof.
  induction a as [|x a IH]; [done|].
  change (String x (a ++ "") = String x a). by rewrite IH.
Qed.

Lemma script_content_app (l1 l2 : list TextChunk) :
  script_content (l1 ++ l2)%list = script_content l1 ++ script_content l2.
Proof.
  induction l1 as [|c l1 IH]; [done|].
  change (text c ++ script_content (l1 ++ l2)%list
          = (text c ++ script_content l1) ++ script_content l2).
  by rewrite IH, string_app_assoc.
Qed.

Lemma NextData_run_buffered transforms (chunks : list TextChunk) :
  forall buffer,
    Forall (fun c => lastInTextNode c = false) chunks ->
    NextData_run transforms buffer chunks
    = (buffer ++ script_content chunks, replicate (length chunks) Removed).
Proof.
  induction chunks as [|c chunks IH]; intros buffer Hall; cbn.
  - by rewrite string_app_nil_r.
  - apply Forall_cons in Hall as [Hc Hall].
    unfold NextData_text. rewrite Hc, (IH _ Hall).
    by rewrite string_app_assoc.
Qed.

Lemma NextData_run_app transforms (l1 l2 : list TextChunk) :
  forall buffer,
    NextData_run transforms buffer (l1 ++ l2)%list
    = let '(buffer1, edits1) := NextData_run transforms buffer l1 in
      let '(buffer2, edits2) := NextData_run transforms buffer1 l2 in
      (buffer2, (edits1 ++ edits2)%list).
Proof.
  induction l1 as [|c l1 IH]; intros buffer; cbn.
  - by destruct (NextData_run transforms buffer l2).
  - destruct (NextData_text transforms buffer c) as [[buffer' edit] logged].
    rewrite IH.
    destruct (NextData_run transforms buffer' l1) as [buffer1 edits1].
    by destruct (NextData_run transforms buffer1 l2).
Qed.

(** The script tag arrives as chunks of which only the last is marked: all
    but the last are removed, and the last is replaced with the data whose
    [props] went through the transforms from left to right, or kept when
    the text is not JSON. *)
Lemma NextData_run_script transforms (chunks : list TextChunk)
    (final : TextChunk) :
  Forall (fun c => lastInTextNode c = false) chunks ->
  lastInTextNode final = true ->
  NextData_run transforms "" (chunks ++ [final])%list
  = (script_content (chunks ++ [final]),
     (replicate (length chunks) Removed
      ++ [last_chunk_edit transforms (script_content (chunks ++ [final]))])
     %list).
Proof.
  intros Hall Hfinal.
  rewrite NextData_run_app, (NextData_run_buffered _ _ _ Hall).
  cbn [NextData_run]. unfold NextData_text. rewrite Hfinal.
  assert (Hcontent : ("" ++ script_content chunks) ++ text final
                     = script_content (chunks ++ [final])).
  { rewrite script_content_app.
    change ("" ++ script_content chunks) with (script_content chunks).
    f_equal. unfold script_content. cbn [foldr].
    by rewrite string_app_nil_r. }
  rewrite Hcontent. unfold last_chunk_edit.
  destruct (JSON_parse _) as [data|]; [|done].
  by destruct (get_props data).
Qed.

Lemma method_is_head_or_options (method : string) :
  (method =? "HEAD")%string || (method =? "OPTIONS")%string = true
  <-> method = "HEAD" \/ method = "OPTIONS".
Proof.
  rewrite orb_true_iff, !String.eqb_eq. reflexivity.
Qed.

Lemma method_not_head_or_options (method : string) :
  method ≠ "HEAD" -> method ≠ "OPTIONS" ->
  (method =? "HEAD")%string || (method =? "OPTIONS")%string = false.
Proof.
  intros Hh Ho. apply String.eqb_neq in Hh, Ho. by rewrite Hh, Ho.
Qed.

Lemma is_json_cookies (origin : Response) (value : string) :
  is_json
    (response_with_headers
       (Hdr.set "set-cookie" value (res_headers origin)) origin)
  = is_json origin.
Proof.
  unfold is_json. cbn [response_with_headers res_headers].
  by rewrite get_set_ne.
Qed.

Lemma copy_cookies_keeps (response : MiddlewareResponse) :
  is_json (originResponse (copy_cookies response))
  = is_json (originResponse response)
  /\ res_body (originResponse (copy_cookies response))
     = res_body (originResponse response)
  /\ dataTransforms (copy_cookies response) = dataTransforms response
  /\ elementHandlers (copy_cookies response) = elementHandlers response.
Proof.
  unfold copy_cookies. destruct (cookies_headers response) as [cookies|];
    [destruct (Hdr.has "set-cookie" cookies)|]; cbn; auto.
  by rewrite is_json_cookies.
Qed.

(** C8, as the code has it.  The request is neither HEAD nor OPTIONS and
    the middleware response has transforms (functions that return).  Then
    they are applied as a fold from the left.  For a JSON origin response
    they are applied to its parsed body, and the result is returned
    serialised; when the body does not parse the run throws a
    [SyntaxError], and when the fold gives [undefined] a [TypeError].
    Otherwise they are applied by the handler registered for the Next data
    script tag, which buffers the chunks, removes all but the last, and
    replaces the last with the parsed data whose [props] went through the
    fold; it leaves the last chunk as it is when the buffered text, trimmed,
    does not parse, or parses to [null]. *)
Theorem transforms_fold_over_props
    context nextConfig requestLocale request (response : MiddlewareResponse)
    events :
  dataTransforms response ≠ [] ->
  req_method request ≠ "HEAD" ->
  req_method request ≠ "OPTIONS" ->
  let run := buildResponse context nextConfig requestLocale
               (mkWorld request (IsMiddlewareResponse response) events) in
  let body := default "" (res_body (originResponse response)) in
  let fold :=
    fold_left (fun prev transform => transform prev)
      (dataTransforms response) in
  transforms_are_applied context nextConfig requestLocale request response
    events
  /\ (forall (chunks : list TextChunk) (final : TextChunk),
        Forall (fun c => lastInTextNode c = false) chunks ->
        lastInTextNode final = true ->
        NextData_run (dataTransforms response) "" (chunks ++ [final])%list
        = (script_content (chunks ++ [final]),
           (replicate (length chunks) Removed
            ++ [last_chunk_edit (dataTransforms response)
                  (script_content (chunks ++ [final]))])%list))
  /\ (is_json (originResponse response) = true ->
      (JSON_parse body = None -> run.1 = Throw SyntaxError)
      /\ (forall props,
            JSON_parse body = Some props -> fold props = Undefined ->
            run.1 = Throw TypeError))
  /\ (forall content : string,
        last_chunk_edit (dataTransforms response) content
        = match JSON_parse (String_trim content) with
          | None | Some Null | Some Undefined => Kept
          | Some (Object properties) =>
              Replaced
                (JSON_serialise
                   (Object
                      (define_property "props"
                         (fold (default Undefined (assoc "props" properties)))
                         properties)))
                true
          | Some data =>
              Replaced
                (JSON_serialise (spread_with_props data (fold Undefined)))
                true
          end).
Proof.
  intros Htransforms Hhead Hoptions. cbn zeta.
  split; [|split; [by apply NextData_run_script|split]].
  3: { intros content. unfold last_chunk_edit.
       destruct (JSON_parse (String_trim content)) as [[]|]; reflexivity. }
  all: unfold transforms_are_applied; cbn zeta; run_start; run;
    rewrite (method_not_head_or_options _ Hhead Hoptions); run;
    match goal with
    | |- context [copy_cookies ?m] =>
        destruct (copy_cookies_keeps m) as (Hjson & Hbody & Hts & Hhs);
        set (copied := copy_cookies m) in *
    end;
    cbn [originResponse dataTransforms elementHandlers] in *;
    rewrite Hjson, Hbody, Hts, ?Hhs.
  - split.
    + intros props Hisjson Hparse Hdefined.
      rewrite Hisjson, Hparse. unfold JSON_stringify.
      destruct (fold_left _ _ props) eqn:Hfold; [done|..]; run;
        eexists; (split; [reflexivity|]); reflexivity.
    + intros Hnotjson. rewrite Hnotjson.
      exists (originResponse copied). split; [exact Hbody|].
      destruct (dataTransforms response) as [|t ts]; [done|].
      cbn [length Nat.ltb Nat.leb app].
      destruct (elementHandlers response); reflexivity.
  - intros Hisjson. rewrite Hisjson. split.
    + intros Hparse. rewrite Hparse. reflexivity.
    + intros props Hparse Hfold. rewrite Hparse. unfold JSON_stringify.
      rewrite Hfold. reflexivity.
Qed.

(** ** Further properties of [buildResponse] *)

(** *** Middleware responses *)

(** The start of a run on a middleware response, up to line 43. *)
Lemma buildResponse_middleware
    context nextConfig requestLocale request (response : MiddlewareResponse)
    events :
  buildResponse context nextConfig requestLocale
    (mkWorld request (IsMiddlewareResponse response) events)
  = middlewareResponse
      (mkMiddlewareResponse (overridden_headers request response)
         (mr_body response) (originResponse response)
         (cookies_headers response) (dataTransforms response)
         (elementHandlers response))
      (mkWorld
         (request_with_headers
            (updateModifiedHeaders (req_headers request)
               (mr_headers response)).1 request)
         (IsMiddlewareResponse
            (mkMiddlewareResponse (overridden_headers request response)
               (mr_body response) (originResponse response)
               (cookies_headers response) (dataTransforms response)
               (elementHandlers response)))
         (events ++
          [Debug [("is_nextresponse_next",
                   string_of_bool
                     (Hdr.has "x-middleware-next" (mr_headers response)))]
             "Building Next.js response"])).
Proof. reflexivity. Qed.

(** X1.  A HEAD or OPTIONS request with a middleware response gets the
    origin response as it is: no cookie is copied onto it, nothing is
    parsed or transformed, nothing is fetched, and nothing is thrown. *)
Theorem head_and_options_get_origin_response
    context nextConfig requestLocale request (response : MiddlewareResponse)
    events :
  req_method request = "HEAD" \/ req_method request = "OPTIONS" ->
  let run := buildResponse context nextConfig requestLocale
               (mkWorld request (IsMiddlewareResponse response) events) in
  run.1 = Normal (Some (originResponse response))
  /\ (exists m, w_result run.2 = IsMiddlewareResponse m
                /\ originResponse m = originResponse response)
  /\ fetches (w_events run.2) = fetches events
  /\ continues (w_events run.2) = continues events.
Proof.
  intros Hmethod. cbn zeta. rewrite buildResponse_middleware. run.
  apply method_is_head_or_options in Hmethod. rewrite Hmethod. run.
  split; [reflexivity|]. split; [eexists; split; reflexivity|].
  assert (Hf : forall evs e,
             match e with Debug _ _ => True | _ => False end ->
             fetches (evs ++ [e])%list = fetches evs
             /\ continues (evs ++ [e])%list = continues evs).
  { intros evs e He. destruct e; try done.
    induction evs as [|x evs [IH1 IH2]]; [done|].
    destruct x; cbn; by rewrite ?IH1, ?IH2. }
  by apply Hf.
Qed.

(** The origin response after the cookies were copied: only 'set-cookie'
    can differ, and it is the one of the cookies when there is one. *)
Lemma copy_cookies_origin (response : MiddlewareResponse) :
  res_body (originResponse (copy_cookies response))
  = res_body (originResponse response)
  /\ Hdr.get "set-cookie" (res_headers (originResponse (copy_cookies response)))
     = match cookies_headers response with
       | Some cookies =>
           match Hdr.get "set-cookie" cookies with
           | Some value => Some value
           | None =>
               Hdr.get "set-cookie" (res_headers (originResponse response))
           end
       | None => Hdr.get "set-cookie" (res_headers (originResponse response))
       end
  /\ forall name, name ≠ "set-cookie" ->
       Hdr.get name (res_headers (originResponse (copy_cookies response)))
       = Hdr.get name (res_headers (originResponse response)).
Proof.
  unfold copy_cookies.
  destruct (cookies_headers response) as [cookies|]; [|auto].
  unfold Hdr.has, Hdr.get.
  destruct (cookies !! "set-cookie") as [value|] eqn:Hcookie.
  - rewrite bool_decide_eq_true_2 by eauto. cbn.
    split; [reflexivity|]. split.
    + unfold Hdr.set. by rewrite lookup_insert_eq.
    + intros name Hname. unfold Hdr.set. by rewrite lookup_insert_ne.
  - rewrite bool_decide_eq_false_2 by (intros [? ?]; done). auto.
Qed.

(** X2.  For a middleware response that is not JSON (and a request that is
    neither HEAD nor OPTIONS), what is returned is the rewriter's transform
    of the origin response, on which 'set-cookie' was replaced by the one of
    the response's cookies when those have one; every other header and the
    body of the origin response are as they were.  The handlers are the one
    for the Next data script tag, when there are transforms, and then those
    of the response in their order. *)
Theorem html_response_goes_through_rewriter
    context nextConfig requestLocale request (response : MiddlewareResponse)
    events :
  req_method request ≠ "HEAD" ->
  req_method request ≠ "OPTIONS" ->
  is_json (originResponse response) = false ->
  let run := buildResponse context nextConfig requestLocale
               (mkWorld request (IsMiddlewareResponse response) events) in
  exists origin : Response,
    run.1 = Normal (Some (HTMLRewriter_transform
                            (registered_handlers response) origin))
    /\ res_body origin = res_body (originResponse response)
    /\ Hdr.get "set-cookie" (res_headers origin)
       = match cookies_headers response with
         | Some cookies =>
             match Hdr.get "set-cookie" cookies with
             | Some value => Some value
             | None =>
                 Hdr.get "set-cookie" (res_headers (originResponse response))
             end
         | None => Hdr.get "set-cookie" (res_headers (originResponse response))
         end
    /\ (forall name, name ≠ "set-cookie" ->
          Hdr.get name (res_headers origin)
          = Hdr.get name (res_headers (originResponse response)))
    /\ fetches (w_events run.2) = fetches events.
Proof.
  intros Hhead Hoptions Hnotjson. cbn zeta.
  rewrite buildResponse_middleware. run.
  rewrite (method_not_head_or_options _ Hhead Hoptions). run.
  match goal with
  | |- context [copy_cookies ?m] =>
      destruct (copy_cookies_keeps m) as (Hjson & _ & Hts & Hhs);
      destruct (copy_cookies_origin m) as (Hbody & Hcookie & Hother);
      set (copied := copy_cookies m) in *
  end.
  cbn [originResponse dataTransforms elementHandlers cookies_headers] in *.
  rewrite Hjson, Hnotjson, Hts, Hhs.
  exists (originResponse copied).
  split.
  { unfold registered_handlers.
    destruct (dataTransforms response), (elementHandlers response);
      reflexivity. }
  split; [exact Hbody|]. split; [exact Hcookie|]. split; [exact Hother|].
  cbn [w_events snd]. rewrite fetches_app. cbn. by rewrite app_nil_r.
Qed.

Lemma get_Response_json (body : string) (h : Headers) (name : string) :
  name ≠ "content-type" ->
  Hdr.get name (res_headers (Response_json body h)) = Hdr.get name h.
Proof.
  intros Hname. unfold Response_json. cbn [res_headers].
  destruct (Hdr.has "content-type" h); [done|]. by apply get_set_ne.
Qed.

Lemma content_type_Response_json (body : string) (h : Headers) :
  Hdr.get "content-type" (res_headers (Response_json body h))
  = Some (default "application/json" (Hdr.get "content-type" h)).
Proof.
  unfold Response_json, Hdr.has, Hdr.get. cbn [res_headers].
  destruct (h !! "content-type") as [ct|] eqn:Hct.
  - rewrite bool_decide_eq_true_2 by eauto. cbn. exact Hct.
  - rewrite bool_decide_eq_false_2 by (intros [? ?]; done).
    unfold Hdr.set. by rewrite lookup_insert_eq.
Qed.

(** X3.  The JSON response that is returned has the serialised result of
    the transforms as its body, the length of that text in UTF-16 code
    units (what [body.length] is) as 'content-length', a 'content-type'
    (the one of the middleware response, or 'application/json' when it has
    none), and otherwise the headers of the middleware response. *)
Theorem json_response_has_length_and_type
    context nextConfig requestLocale request (response : MiddlewareResponse)
    events (props : value) :
  req_method request ≠ "HEAD" ->
  req_method request ≠ "OPTIONS" ->
  is_json (originResponse response) = true ->
  JSON_parse (default "" (res_body (originResponse response))) = Some props ->
  let transformed :=
    fold_left (fun prev transform => transform prev)
      (dataTransforms response) props in
  transformed ≠ Undefined ->
  let run := buildResponse context nextConfig requestLocale
               (mkWorld request (IsMiddlewareResponse response) events) in
  exists returned : Response,
    run.1 = Normal (Some returned)
    /\ res_body returned = Some (JSON_serialise transformed)
    /\ Hdr.get "content-length" (res_headers returned)
       = Some (pretty (string_length (JSON_serialise transformed)))
    /\ Hdr.get "content-type" (res_headers returned)
       = Some (default "application/json"
                 (Hdr.get "content-type" (overridden_headers request response)))
    /\ forall name, name ≠ "content-length" -> name ≠ "content-type" ->
         Hdr.get name (res_headers returned)
         = Hdr.get name (overridden_headers request response).
Proof.
  intros Hhead Hoptions Hisjson Hparse transformed Hdefined. cbn zeta.
  rewrite buildResponse_middleware. run.
  rewrite (method_not_head_or_options _ Hhead Hoptions). run.
  match goal with
  | |- context [copy_cookies ?m] =>
      destruct (copy_cookies_keeps m) as (Hjson & Hbody & Hts & _);
      assert (Hheaders : mr_headers (copy_cookies m) = mr_headers m)
        by (unfold copy_cookies;
            destruct (cookies_headers m) as [c|];
            [destruct (Hdr.has "set-cookie" c)|]; reflexivity);
      set (copied := copy_cookies m) in *
  end.
  cbn [originResponse dataTransforms mr_headers] in *.
  rewrite Hjson, Hisjson, Hbody, Hparse, Hts, Hheaders.
  fold transformed. unfold JSON_stringify.
  destruct transformed eqn:Htransformed; [done|..]; run;
    (eexists; split; [reflexivity|]; split; [reflexivity|];
     split;
     [rewrite get_Response_json by done; apply get_set_eq|];
     split;
     [rewrite content_type_Response_json;
      by rewrite (get_set_ne "content-length" "content-type")
     |intros name Hn1 Hn2; rewrite get_Response_json by done;
      by apply get_set_ne]).
Qed.

(** *** The handler of the Next data script tag *)

Lemma NextData_text_edit transforms (buffer : string) (chunk : TextChunk) :
  (NextData_text transforms buffer chunk).1.1 = buffer ++ text chunk
  /\ (NextData_text transforms buffer chunk).1.2
     = if lastInTextNode chunk
       then last_chunk_edit transforms (buffer ++ text chunk)
       else Removed.
Proof.
  unfold NextData_text, last_chunk_edit.
  destruct (lastInTextNode chunk); [|done].
  destruct (JSON_parse _) as [data|]; [|done].
  by destruct (get_props data).
Qed.

Lemma script_content_take_S (chunks : list TextChunk) (i : nat)
    (c : TextChunk) :
  chunks !! i = Some c ->
  script_content (take (S i) chunks) = script_content (take i chunks) ++ text c.
Proof.
  intros Hc. rewrite (take_S_r _ _ _ Hc), script_content_app.
  f_equal. unfold script_content. cbn [foldr]. apply string_app_nil_r.
Qed.

(** X5.  The handler never resets its buffer.  Whatever chunks it is fed,
    from whatever buffer: the buffer ends as all the text seen so far; every
    chunk gets an edit; a chunk that is not the last of its text node is
    removed; and a chunk that is the last of its node is edited according to
    all the text up to it, the text of earlier nodes included. *)
Theorem NextData_buffer_is_never_reset
    (transforms : list (value -> value)) (chunks : list TextChunk)
    (buffer : string) :
  let result := NextData_run transforms buffer chunks in
  result.1 = buffer ++ script_content chunks
  /\ length result.2 = length chunks
  /\ forall (i : nat) (c : TextChunk),
       chunks !! i = Some c ->
       result.2 !! i
       = Some (if lastInTextNode c
               then last_chunk_edit transforms
                      (buffer ++ script_content (take (S i) chunks))
               else Removed).
Proof.
  cbn zeta. revert buffer.
  induction chunks as [|c chunks IH]; intros buffer.
  - cbn. rewrite string_app_nil_r. repeat split. intros i c Hc.
    by rewrite lookup_nil in Hc.
  - cbn [NextData_run].
    destruct (NextData_text_edit transforms buffer c) as [Hbuffer Hedit].
    destruct (NextData_text transforms buffer c) as [[buffer' edit] logged].
    cbn [fst snd] in Hbuffer, Hedit. subst buffer' edit.
    destruct (IH (buffer ++ text c)) as (IHb & IHl & IHe).
    destruct (NextData_run transforms (buffer ++ text c) chunks)
      as [buffer'' edits].
    cbn [fst snd] in *. split; [|split].
    + rewrite IHb, string_app_assoc. reflexivity.
    + cbn. by rewrite IHl.
    + intros [|i] c' Hc'.
      * simpl in Hc'. injection Hc' as <-.
        change (take 1 (c :: chunks)) with [c].
        change (script_content [c]) with (text c ++ "").
        by rewrite string_app_nil_r.
      * simpl in Hc'. transitivity (edits !! i); [reflexivity|].
        rewrite (IHe i c' Hc'). f_equal.
        destruct (lastInTextNode c'); [|done]. f_equal.
        change (take (S (S i)) (c :: chunks)) with (c :: take (S i) chunks).
        change (script_content (c :: take (S i) chunks))
          with (text c ++ script_content (take (S i) chunks)).
        by rewrite string_app_assoc.
Qed.

Lemma assoc_define_property_eq (k : string) (v : value)
    (ps : list (string * value)) :
  assoc k (define_property k v ps) = Some v.
Proof.
  induction ps as [|[k' v'] ps IH]; cbn.
  - by rewrite decide_True.
  - destruct (decide (k = k')) as [->|Hk]; cbn.
    + by rewrite decide_True.
    + by rewrite decide_False.
Qed.

Lemma assoc_define_property_ne (k k0 : string) (v : value)
    (ps : list (string * value)) :
  k0 ≠ k -> assoc k0 (define_property k v ps) = assoc k0 ps.
Proof.
  intros Hne. induction ps as [|[k' v'] ps IH]; cbn.
  - by rewrite decide_False.
  - destruct (decide (k = k')) as [->|Hk]; cbn.
    + by rewrite !decide_False.
    + destruct (decide (k0 = k')); [done | exact IH].
Qed.

Lemma define_property_keys (k : string) (v : value)
    (ps : list (string * value)) :
  (is_Some (assoc k ps) -> (define_property k v ps).*1 = ps.*1)
  /\ (assoc k ps = None -> define_property k v ps = (ps ++ [(k, v)])%list).
Proof.
  induction ps as [|[k' v'] ps [IH1 IH2]]; cbn.
  - split; [by intros [? ?] | done].
  - destruct (decide (k = k')) as [->|Hk]; cbn.
    + split; [done | discriminate].
    + split; intros Hk'; [by rewrite IH1 | by rewrite IH2].
Qed.

(** X6.  When the text of the script tag is a JSON object, the last chunk is
    replaced with the serialised object in which [props] is what the
    transforms make of the old [props] ([undefined] when there was none),
    every other property has the value it had, and the properties are in
    the order they were, a new [props] going last. *)
Theorem replacement_keeps_the_other_properties
    (transforms : list (value -> value)) (buffer : string)
    (chunk : TextChunk) (properties : list (string * value)) :
  lastInTextNode chunk = true ->
  JSON_parse (String_trim (buffer ++ text chunk)) = Some (Object properties) ->
  let props :=
    fold_left (fun prev transform => transform prev) transforms
      (default Undefined (assoc "props" properties)) in
  exists replaced : list (string * value),
    NextData_text transforms buffer chunk
    = (buffer ++ text chunk,
       Replaced (JSON_serialise (Object replaced)) true, None)
    /\ assoc "props" replaced = Some props
    /\ (forall k, k ≠ "props" -> assoc k replaced = assoc k properties)
    /\ (is_Some (assoc "props" properties) -> replaced.*1 = properties.*1)
    /\ (assoc "props" properties = None ->
        replaced = (properties ++ [("props", props)])%list).
Proof.
  intros Hlast Hparse props.
  exists (define_property "props" props properties).
  split.
  { unfold NextData_text. rewrite Hlast, Hparse. reflexivity. }
  split; [apply assoc_define_property_eq|].
  split; [intros k Hk; by apply assoc_define_property_ne|].
  apply define_property_keys.
Qed.

(** X7.  When the text of the script tag is JSON but not an object: for
    [null] nothing is replaced, since reading [props] of it throws and the
    error is caught; for a number or a boolean the chunk is replaced with an
    object that has [props] alone, the transforms having run on
    [undefined]. *)
Theorem script_data_that_is_no_object
    (transforms : list (value -> value)) (buffer : string)
    (chunk : TextChunk) (data : value) :
  lastInTextNode chunk = true ->
  JSON_parse (String_trim (buffer ++ text chunk)) = Some data ->
  (data = Null ->
   NextData_text transforms buffer chunk
   = (buffer ++ text chunk, Kept, Some TypeError))
  /\ ((exists literal, data = Number literal)
      \/ (exists b, data = Boolean b) ->
      NextData_text transforms buffer chunk
      = (buffer ++ text chunk,
         Replaced
           (JSON_serialise
              (Object
                 [("props",
                   fold_left (fun prev transform => transform prev)
                     transforms Undefined)]))
           true,
         None)).
Proof.
  intros Hlast Hparse. unfold NextData_text. rewrite Hlast, Hparse.
  split.
  - intros ->. reflexivity.
  - intros [[literal ->]|[b ->]]; reflexivity.
Qed.

(** *** What a run does to the request and what it calls *)

Ltac close_effects :=
  unfold effects_within, has_body;
  cbn [w_events w_request req_url req_method req_body req_bodyUsed
       request_with_headers request_body_used];
  rewrite <- ?app_assoc; cbn [app];
  repeat match goal with
         | H : req_body _ = _ |- _ => rewrite H
         | H : req_bodyUsed _ = _ |- _ => rewrite H
         end;
  split; [reflexivity || (symmetry; apply app_nil_r)|];
  cbn [fetches continues body_reads length Nat.add Nat.ltb Nat.leb];
  rewrite ?andb_false_r, ?andb_true_r, ?orb_false_r, ?orb_true_r;
  repeat split; try reflexivity; try lia.

Lemma plainResponse_effects context nextConfig requestLocale res (w : World) :
  let run := plainResponse context nextConfig requestLocale res w in
  exists new : list Event,
    effects_within w run.2 new
    /\ middleware_nexts new = 0
    /\ Hdr.get "x-nf-next-middleware" (req_headers (w_request run.2))
       = Some "skip".
Proof.
  cbn zeta. unfold effects_within, has_body. run.
  destruct (truthy (Hdr.get "x-middleware-rewrite" (res_headers res)))
    as [rewrite|]; run.
  - destruct (URL_new rewrite (Some (req_url (w_request w))))
      as [rewriteUrl|]; run.
    2: { eexists. split; [close_effects|]. split; [reflexivity|].
         apply get_set_eq. }
    destruct (URL_new (req_url (w_request w)) None) as [baseUrl|]; run.
    2: { eexists. split; [close_effects|]. split; [reflexivity|].
         apply get_set_eq. }
    destruct (decide (URL_toString rewriteUrl = URL_toString baseUrl)); run.
    { eexists. split; [close_effects|]. split; [reflexivity|].
      apply get_set_eq. }
    destruct (URL_new (req_url (w_request w)) (Some "http://n"))
      as [originalUrl|]; run.
    2: { eexists. split; [close_effects|]. split; [reflexivity|].
         apply get_set_eq. }
    destruct (decide (URL_origin rewriteUrl ≠ URL_origin baseUrl)); run.
    + destruct (req_body (w_request w)) as [body|] eqn:Hbody;
        [destruct (req_bodyUsed (w_request w)) eqn:Hused|];
        cbn [negb]; run;
        (eexists; split; [close_effects|]; split; [reflexivity|];
         apply get_set_eq).
    + unfold new_Request.
      cbn [request_with_headers req_body req_bodyUsed req_method req_headers
           req_url].
      destruct (req_body (w_request w)) as [body|] eqn:Hbody;
        [destruct (req_bodyUsed (w_request w)) eqn:Hused|];
        run; rewrite ?Hbody; run;
        (eexists; split; [close_effects|]; split; [reflexivity|];
         rewrite get_set_ne by done; apply get_set_eq).
  - destruct (localeRedirect _ _ _ _) as [[redirect res1]|]; run.
    2: { exists []. split; [close_effects|]. split; [reflexivity|].
         apply get_set_eq. }
    destruct (decide _); run;
      (eexists; split; [close_effects|]; split; [reflexivity|];
       apply get_set_eq).
Qed.

Lemma middlewareResponse_effects (response : MiddlewareResponse) (w : World) :
  let run := middlewareResponse response w in
  w_events run.2 = w_events w /\ w_request run.2 = w_request w.
Proof.
  cbn zeta. run.
  repeat match goal with
         | |- context [match ?x with _ => _ end] => destruct x
         end; run; auto.
Qed.

Lemma effects_after_start (w w0 w' : World) (pre new : list Event) :
  w_events w0 = (w_events w ++ pre)%list ->
  fetches pre = [] -> continues pre = 0 -> body_reads pre = 0 ->
  req_url (w_request w0) = req_url (w_request w) ->
  req_method (w_request w0) = req_method (w_request w) ->
  req_body (w_request w0) = req_body (w_request w) ->
  req_bodyUsed (w_request w0) = req_bodyUsed (w_request w) ->
  effects_within w0 w' new ->
  effects_within w w' (pre ++ new).
Proof.
  unfold effects_within, has_body.
  intros Hev Hf Hc Hb Hurl Hmethod Hbody Hused
    (Hev' & Hcalls & Hreads & Hurl' & Hmethod' & Hbody' & Hused').
  rewrite fetches_app, continues_app, body_reads_app, Hf, Hc, Hb.
  rewrite Hev', Hev, <- app_assoc, Hurl', Hmethod', Hbody', Hused'.
  rewrite Hurl, Hmethod, Hbody, Hused. cbn. repeat split; assumption.
Qed.

Lemma buildResponse_effects context nextConfig requestLocale (w : World) :
  let run := buildResponse context nextConfig requestLocale w in
  exists new : list Event,
    effects_within w run.2 new
    /\ middleware_nexts new
       = (if isMiddlewareRequest (w_result w) then 1 else 0).
Proof.
  cbn zeta.
  assert (Hplain : forall res (w0 : World) (pre : list Event),
    w_events w0 = (w_events w ++ pre)%list ->
    fetches pre = [] -> continues pre = 0 -> body_reads pre = 0 ->
    req_url (w_request w0) = req_url (w_request w) ->
    req_method (w_request w0) = req_method (w_request w) ->
    req_body (w_request w0) = req_body (w_request w) ->
    req_bodyUsed (w_request w0) = req_bodyUsed (w_request w) ->
    exists new,
      effects_within w (plainResponse context nextConfig requestLocale res
                          w0).2 new
      /\ middleware_nexts new = middleware_nexts pre).
  { intros res w0 pre Hev Hf Hc Hb Hurl Hmethod Hbody Hused.
    destruct (plainResponse_effects context nextConfig requestLocale res w0)
      as (new & Heffects & Hnexts & _).
    exists (pre ++ new)%list. split.
    - by eapply effects_after_start.
    - rewrite middleware_nexts_app, Hnexts. lia. }
  assert (Hmiddleware : forall response (w0 : World) (pre : list Event),
    w_events w0 = (w_events w ++ pre)%list ->
    fetches pre = [] -> continues pre = 0 -> body_reads pre = 0 ->
    req_url (w_request w0) = req_url (w_request w) ->
    req_method (w_request w0) = req_method (w_request w) ->
    req_body (w_request w0) = req_body (w_request w) ->
    req_bodyUsed (w_request w0) = req_bodyUsed (w_request w) ->
    exists new,
      effects_within w (middlewareResponse response w0).2 new
      /\ middleware_nexts new = middleware_nexts pre).
  { intros response w0 pre Hev Hf Hc Hb Hurl Hmethod Hbody Hused.
    destruct (middlewareResponse_effects response w0) as [Hev' Hreq'].
    exists pre. split; [|reflexivity].
    unfold effects_within. rewrite Hev', Hreq', Hev, Hf, Hc, Hb.
    rewrite Hurl, Hmethod, Hbody, Hused. cbn.
    rewrite andb_false_r, orb_false_r. repeat split; lia. }
  destruct w as [request result events].
  destruct result as [h b [h' b' n'|response|r]|response|r]; run_start;
    cbn [isMiddlewareRequest];
    match goal with
    | |- context [plainResponse _ _ _ ?res
                    (mkWorld ?rq ?rs ((events ++ ?a) ++ ?b)%list)] =>
        destruct (Hplain res (mkWorld rq rs ((events ++ a) ++ b)%list)
                    (a ++ b)%list) as (new & Heffects & Hnexts)
    | |- context [plainResponse _ _ _ ?res
                    (mkWorld ?rq ?rs (events ++ ?a)%list)] =>
        destruct (Hplain res (mkWorld rq rs (events ++ a)%list) a)
          as (new & Heffects & Hnexts)
    | |- context [middlewareResponse ?m
                    (mkWorld ?rq ?rs ((events ++ ?a) ++ ?b)%list)] =>
        destruct (Hmiddleware m (mkWorld rq rs ((events ++ a) ++ b)%list)
                    (a ++ b)%list) as (new & Heffects & Hnexts)
    | |- context [middlewareResponse ?m
                    (mkWorld ?rq ?rs (events ++ ?a)%list)] =>
        destruct (Hmiddleware m (mkWorld rq rs (events ++ a)%list) a)
          as (new & Heffects & Hnexts)
    end;
    try (cbn; rewrite <- ?app_assoc; reflexivity);
    exists new; (split; [exact Heffects | rewrite Hnexts; reflexivity]).
Qed.

(** X8.  Whatever it is given, a run calls out at most once: it fetches one
    request or calls [context.next()] once or does neither, never both.  It
    reads the body of the request only for a request it fetches, and it
    calls [next()] on [result.response] once when that is a
    [MiddlewareRequest] and never otherwise. *)
Theorem run_calls_out_at_most_once
    context nextConfig requestLocale (w : World) :
  let run := buildResponse context nextConfig requestLocale w in
  exists new : list Event,
    w_events run.2 = (w_events w ++ new)%list
    /\ length (fetches new) + continues new <= 1
    /\ body_reads new <= length (fetches new)
    /\ middleware_nexts new
       = (if isMiddlewareRequest (w_result w) then 1 else 0).
Proof.
  cbn zeta.
  destruct (buildResponse_effects context nextConfig requestLocale w)
    as (new & (Hev & Hcalls & Hreads & _) & Hnexts).
  exists new. auto.
Qed.

(** X9.  Whatever it is given, and whether it returns or throws, a run
    leaves the URL, the method and the body of the request as they were.
    Of the request it changes the headers and the [bodyUsed] flag: the body
    is used afterwards exactly when it was used before or the request has a
    body and the run fetched a request, which then took the body along
    (read with [arrayBuffer] across origins, as the stream of the request
    within the origin). *)
Theorem request_keeps_url_method_and_body
    context nextConfig requestLocale (w : World) :
  let run := buildResponse context nextConfig requestLocale w in
  exists new : list Event,
    w_events run.2 = (w_events w ++ new)%list
    /\ req_url (w_request run.2) = req_url (w_request w)
    /\ req_method (w_request run.2) = req_method (w_request w)
    /\ req_body (w_request run.2) = req_body (w_request w)
    /\ req_bodyUsed (w_request run.2)
       = req_bodyUsed (w_request w)
         || (has_body (w_request w) && (0 <? length (fetches new))%nat).
Proof.
  cbn zeta.
  destruct (buildResponse_effects context nextConfig requestLocale w)
    as (new & (Hev & _ & _ & Hurl & Hmethod & Hbody & Hused) & _).
  exists new. auto.
Qed.

(** X10.  Unless [result.response] is a middleware response, a run leaves
    'x-nf-next-middleware' set to 'skip' on the request, whether it returns
    a response, returns nothing or throws. *)
Theorem plain_response_marks_the_request
    context nextConfig requestLocale request (r : Response) events :
  Hdr.get "x-nf-next-middleware"
    (req_headers
       (w_request
          (buildResponse context nextConfig requestLocale
             (mkWorld request (IsResponse r) events)).2))
  = Some "skip".
Proof.
  rewrite buildResponse_plain.
  by destruct (plainResponse_effects context nextConfig requestLocale
                 (mkResponse (overridden request r).2 (res_body r))
                 (mkWorld
                    (request_with_headers (overridden request r).1 request)
                    (IsResponse
                       (response_with_headers (overridden request r).2 r))
                    (events ++
                     [Debug [("is_nextresponse_next",
                              string_of_bool
                                (Hdr.has "x-middleware-next" (res_headers r)))]
                        "Building Next.js response"])))
    as (new & _ & _ & Hmarker).
Qed.

(** *** Plain responses: errors and the paths the claims leave out *)

(** X11.  With a plain response, a URL that does not parse makes the run
    throw a [TypeError] before it calls out: the target of a rewrite, or,
    without a rewrite, the target of a redirect when a locale of the
    request was detected.  Nothing is fetched then, and [context.next()] is
    not called. *)
Theorem plain_response_throws_on_bad_url
    context nextConfig requestLocale request (r : Response) events :
  let url := req_url request in
  let run := buildResponse context nextConfig requestLocale
               (mkWorld request (IsResponse r) events) in
  (exists target,
      truthy (Hdr.get "x-middleware-rewrite" (overridden request r).2)
      = Some target
      /\ URL_new target (Some url) = None)
  \/ (truthy (Hdr.get "x-middleware-rewrite" (overridden request r).2) = None
      /\ exists target locale,
           truthy (Hdr.get "location" (overridden request r).2) = Some target
           /\ truthy requestLocale = Some locale
           /\ URL_new target (Some url) = None) ->
  run.1 = Throw TypeError
  /\ fetches (w_events run.2) = fetches events
  /\ continues (w_events run.2) = continues events.
Proof.
  cbn zeta. rewrite buildResponse_plain. run.
  intros [(target & -> & Hbad)|(-> & target & locale & Hloc & Hlocale & Hbad)];
    run.
  - rewrite Hbad. run. split; [reflexivity|]. by count_calls.
  - unfold localeRedirect. cbn [res_headers]. rewrite Hloc, Hlocale, Hbad.
    run. split; [reflexivity|]. by count_calls.
Qed.

(** X12.  A plain response that asks for nothing (no rewrite, no
    'x-middleware-next' of '1') to a request that is not a data request,
    when there is no redirect or no locale to add to it, is returned as it
    is: its headers after the request-header overrides, and its body.
    Nothing is fetched and [context.next()] is not called. *)
Theorem plain_response_passes_through
    context nextConfig requestLocale request (r : Response) events :
  truthy (Hdr.get "x-middleware-rewrite" (overridden request r).2) = None ->
  Hdr.has "x-nextjs-data" (overridden request r).1 = false ->
  truthy (Hdr.get "location" (overridden request r).2) = None
  \/ truthy requestLocale = None ->
  Hdr.get "x-middleware-next" (overridden request r).2 ≠ Some "1" ->
  let run := buildResponse context nextConfig requestLocale
               (mkWorld request (IsResponse r) events) in
  run.1 = Normal (Some (mkResponse (overridden request r).2 (res_body r)))
  /\ fetches (w_events run.2) = fetches events
  /\ continues (w_events run.2) = continues events.
Proof.
  intros Hrw Hdata Hredirect Hnext. cbn zeta.
  assert (Hblock :
    localeRedirect (req_url request) nextConfig requestLocale
      (mkResponse (overridden request r).2 (res_body r))
    = Normal (Hdr.get "location" (overridden request r).2,
              mkResponse (overridden request r).2 (res_body r))).
  { unfold localeRedirect. cbn [res_headers].
    destruct Hredirect as [-> | ->]; [done|].
    by destruct (truthy (Hdr.get "location" _)). }
  rewrite buildResponse_plain. run. rewrite Hrw, Hblock. run.
  rewrite has_set_ne by done. rewrite Hdata.
  assert (Hsame : forall (A : Type) (o : option A) (x : Response),
             match o with Some _ => x | None => x end = x)
    by (by intros A []).
  rewrite !Hsame. cbn [res_headers].
  destruct (decide _); [done|]. run.
  split; [reflexivity|].
  rewrite fetches_app, continues_app. cbn. by rewrite app_nil_r, Nat.add_0_r.
Qed.

(** X13.  For a data request, a plain response without rewrite and without
    redirect that already carries a non-empty 'x-nextjs-redirect' has it
    normalized as a data URL in the response that is returned or handed to
    [addMiddlewareHeaders]. *)
Theorem data_request_normalizes_router_redirect
    context nextConfig requestLocale request (r : Response) events
    (router_redirect : string) :
  Hdr.has "x-nextjs-data" (overridden request r).1 = true ->
  truthy (Hdr.get "x-middleware-rewrite" (overridden request r).2) = None ->
  truthy (Hdr.get "location" (overridden request r).2) = None ->
  Hdr.get "x-nextjs-redirect" (overridden request r).2
  = Some router_redirect ->
  router_redirect ≠ "" ->
  let run := buildResponse context nextConfig requestLocale
               (mkWorld request (IsResponse r) events) in
  exists res : Response,
    (run.1 = Normal (Some res)
     \/ run.1 = Normal (Some (addMiddlewareHeaders (next context) res)))
    /\ Hdr.get "x-nextjs-redirect" (res_headers res)
       = Some (normalizeDataUrl router_redirect)
    /\ Hdr.get "location" (res_headers res)
       = Hdr.get "location" (overridden request r).2.
Proof.
  intros Hdata Hrw Hlocation Hrouter Hne. cbn zeta.
  assert (Hblock :
    localeRedirect (req_url request) nextConfig requestLocale
      (mkResponse (overridden request r).2 (res_body r))
    = Normal (Hdr.get "location" (overridden request r).2,
              mkResponse (overridden request r).2 (res_body r))).
  { unfold localeRedirect. cbn [res_headers]. by rewrite Hlocation. }
  rewrite buildResponse_plain. run. rewrite Hrw, Hblock. run.
  rewrite has_set_ne by done. rewrite Hdata, Hlocation. cbn [res_headers].
  rewrite (truthy_Some _ _ Hrouter Hne).
  cbn [response_with_headers res_headers res_body].
  destruct (decide _); run; eexists;
    (split; [first [right; reflexivity | left; reflexivity]|]);
    cbn [response_with_headers res_headers res_body];
    rewrite ?(get_delete_ne "x-middleware-next") by done;
    rewrite get_set_eq, get_set_ne by done; auto.
Qed.

(** X14.  On a cross-origin rewrite the body of the request goes into the
    proxy request only when the request has one that was not used yet: it is
    then read once and the request is left with its body used.  A request
    without body, or whose body was used already, is proxied without body
    and nothing is read. *)
Theorem proxy_request_takes_an_unused_body
    context nextConfig requestLocale request (r : Response) events
    (rewrite : string) (rewriteUrl baseUrl originalUrl : URL) :
  Hdr.get "x-middleware-rewrite" (overridden request r).2 = Some rewrite ->
  rewrite ≠ "" ->
  URL_new rewrite (Some (req_url request)) = Some rewriteUrl ->
  URL_new (req_url request) None = Some baseUrl ->
  URL_new (req_url request) (Some "http://n") = Some originalUrl ->
  URL_toString rewriteUrl ≠ URL_toString baseUrl ->
  URL_origin rewriteUrl ≠ URL_origin baseUrl ->
  let run := buildResponse context nextConfig requestLocale
               (mkWorld request (IsResponse r) events) in
  exists proxyRequest : Request,
    fetches (w_events run.2) = (fetches events ++ [proxyRequest])%list
    /\ req_body proxyRequest
       = (if has_unused_body request then req_body request else None)
    /\ req_bodyUsed proxyRequest = false
    /\ body_reads (w_events run.2)
       = body_reads events + (if has_unused_body request then 1 else 0)
    /\ req_bodyUsed (w_request run.2)
       = req_bodyUsed request || has_unused_body request.
Proof.
  intros Hrw Hne Hu Hb Ho Hstr Horigin. cbn zeta.
  rewrite buildResponse_plain. run.
  rewrite (truthy_Some _ _ Hrw Hne). run.
  rewrite Hu. run. rewrite Hb. run.
  destruct (decide (URL_toString rewriteUrl = URL_toString baseUrl));
    [done|].
  rewrite Ho. run.
  destruct (decide (URL_origin rewriteUrl ≠ URL_origin baseUrl)); [|done].
  unfold has_unused_body.
  destruct (match req_body request with
            | Some _ => negb (req_bodyUsed request)
            | None => false
            end); run;
    eexists; rewrite !fetches_app, !body_reads_app; cbn;
    rewrite ?app_nil_r, ?orb_true_r, ?orb_false_r;
    repeat split; lia.
Qed.

(** X15.  On a rewrite whose target differs from the request URL, the
    middleware response that is handed to [addMiddlewareHeaders] has
    'x-nextjs-rewrite' set to the relativized target when the request is a
    data request, and left alone otherwise.  Its 'x-middleware-rewrite' is
    the relativized target within the origin; across origins it keeps the
    value the middleware gave, and then the request is not given the header
    either.  Within the origin a request whose body was read already is
    refused by [new Request]: the run throws, the request having been given
    the header. *)
Theorem rewrite_headers_of_the_middleware_response
    context nextConfig requestLocale request (r : Response) events
    (rewrite : string) (rewriteUrl baseUrl originalUrl : URL) :
  Hdr.get "x-middleware-rewrite" (overridden request r).2 = Some rewrite ->
  rewrite ≠ "" ->
  URL_new rewrite (Some (req_url request)) = Some rewriteUrl ->
  URL_new (req_url request) None = Some baseUrl ->
  URL_new (req_url request) (Some "http://n") = Some originalUrl ->
  URL_toString rewriteUrl ≠ URL_toString baseUrl ->
  let run := buildResponse context nextConfig requestLocale
               (mkWorld request (IsResponse r) events) in
  let relative := relativizeURL rewrite (req_url request) in
  let across := bool_decide (URL_origin rewriteUrl ≠ URL_origin baseUrl) in
  if has_used_body request && negb across
  then run.1 = Throw TypeError
       /\ Hdr.get "x-middleware-rewrite" (req_headers (w_request run.2))
          = Some rewrite
  else
    exists (fetched : Request) (res : Response),
      run.1 = Normal (Some (addMiddlewareHeaders (fetch_response fetched) res))
      /\ res_body res = res_body r
      /\ Hdr.get "x-nextjs-rewrite" (res_headers res)
         = (if Hdr.has "x-nextjs-data" (overridden request r).1
            then Some relative
            else Hdr.get "x-nextjs-rewrite" (overridden request r).2)
      /\ Hdr.get "x-middleware-rewrite" (res_headers res)
         = Some (if across then rewrite else relative)
      /\ Hdr.get "x-middleware-rewrite" (req_headers (w_request run.2))
         = (if across
            then Hdr.get "x-middleware-rewrite" (overridden request r).1
            else Some rewrite)
      /\ forall name,
           name ≠ "x-nextjs-rewrite" -> name ≠ "x-middleware-rewrite" ->
           Hdr.get name (res_headers res)
           = Hdr.get name (overridden request r).2.
Proof.
  intros Hrw Hne Hu Hb Ho Hstr. cbn zeta.
  rewrite buildResponse_plain. run.
  rewrite (truthy_Some _ _ Hrw Hne). run.
  rewrite Hu. run. rewrite Hb. run.
  destruct (decide (URL_toString rewriteUrl = URL_toString baseUrl));
    [done|].
  rewrite Ho. run. rewrite has_set_ne by done.
  destruct (decide (URL_origin rewriteUrl ≠ URL_origin baseUrl))
    as [Hacross|Hwithin].
  - rewrite (bool_decide_eq_true_2 _ Hacross).
    cbn [negb]. rewrite andb_false_r.
    destruct (match req_body request with
              | Some _ => negb (req_bodyUsed request)
              | None => false
              end); run;
      destruct (Hdr.has "x-nextjs-data" (overridden request r).1);
      (eexists _, _; split; [reflexivity|];
       cbn [response_with_headers res_headers res_body];
       rewrite ?get_set_eq, ?(get_set_ne "x-nextjs-rewrite"
                                "x-middleware-rewrite") by done;
       rewrite ?(get_set_ne "x-nf-next-middleware" "x-middleware-rewrite")
         by done;
       repeat split; auto;
       intros name Hn1 Hn2; by rewrite ?get_set_ne by done).
  - rewrite (bool_decide_eq_false_2 _ Hwithin).
    cbn [negb]. rewrite andb_true_r. run.
    unfold has_used_body, has_body, new_Request.
    cbn [request_with_headers req_body req_bodyUsed req_method req_headers
         req_url].
    destruct (req_body request) as [body|] eqn:Hbody;
      [destruct (req_bodyUsed request) eqn:Hused|];
      run; rewrite ?Hbody; run; cbn [andb].
    1: { split; [reflexivity | apply get_set_eq]. }
    all: destruct (Hdr.has "x-nextjs-data" (overridden request r).1);
      (eexists _, _; split; [reflexivity|];
       cbn [response_with_headers res_headers res_body req_headers
            request_body_used request_with_headers];
       rewrite ?get_set_eq;
       rewrite ?(get_set_ne "x-middleware-rewrite" "x-nextjs-rewrite")
         by done;
       rewrite ?get_set_eq;
       repeat split; auto;
       intros name Hn1 Hn2; by rewrite ?get_set_ne by done).
Qed.

End BuildResponseProperties.

(** ** The theorems on the sample platform *)

Import Sample.

(** The handler of the sample framework throws on [/boom] before it has
    written anything: the answer is the generic 500. *)
Lemma handler_error_sets_500_and_ends_response_witness :
  exists response : ComputeResponse,
    (handler boom_request Ready fresh_scope).1.1 = Normal response
    /\ status response = 500%Z
    /\ cr_body response = "Internal Server Error"
    /\ times is_CallNextHandler (handler boom_request Ready fresh_scope).2 = 1.
Proof.
  destruct (@handler_error_sets_500_and_ends_response server_env
              boom_request Ready fresh_scope sample_handler TypeError
              (mkServerResponse 200 ∅ "" false))
    as (response & Hrun & Hgeneric & _ & Hcalls & _).
  - reflexivity.
  - reflexivity.
  - destruct (Hgeneric eq_refl eq_refl) as [Hstatus Hbody].
    exists response. auto.
Defined.

(** A deployment whose framework does not start, twice, and then starts:
    [nextHandler] is unset until then, and the invocation that gets through
    assigns each variable once. *)
Lemma caches_assigned_until_initialised_witness :
  let failed :=
    serve [(home_request, FrameworkFails); (home_request, ConfigMissing)]
      fresh_scope in
  let first := handler home_request Ready failed.1.2 in
  nextHandler failed.1.2 = None
  /\ times is_AssignNextHandler first.2 = 1
  /\ times is_AssignNextConfig first.2 = 1
  /\ is_Some (nextHandler first.1.2).
Proof.
  destruct (@caches_assigned_until_initialised server_env
              [(home_request, FrameworkFails); (home_request, ConfigMissing)])
    as (_ & _ & Hunset & Hfirst).
  - repeat constructor.
  - destruct (Hfirst home_request Ready [] eq_refl)
      as (Hhandler & Hconfig & Hset & _).
    cbn zeta. auto.
Defined.

(** A rewrite of [/blog] to [/blog] returns nothing. *)
Lemma rewrite_to_same_url_returns_nothing_witness :
  (buildResponse sample_context sample_config None
     (mkWorld page_request
        (IsResponse
           (mkResponse {[ "x-middleware-rewrite" := "/blog" ]} (Some "body")))
        [])).1
  = Normal None.
Proof.
  destruct (@rewrite_to_same_url_returns_nothing platform helpers
              sample_context sample_config None
              page_request
              (mkResponse {[ "x-middleware-rewrite" := "/blog" ]}
                 (Some "body"))
              [] "/blog"
              (mkUrl "https://example.com" "/blog")
              (mkUrl "https://example.com" "/blog"))
    as [Hrun _].
  - reflexivity.
  - discriminate.
  - reflexivity.
  - reflexivity.
  - reflexivity.
  - exact Hrun.
Defined.

(** A rewrite to another origin: the proxy request has lost the 'x-nf-'
    header of the request and kept 'accept'. *)
Lemma proxy_request_has_no_internal_headers_witness :
  let run :=
    buildResponse sample_context sample_config None
      (mkWorld page_request
         (IsResponse
            (mkResponse
               {[ "x-middleware-rewrite" := "https://other.example/landing" ]}
               (Some "body")))
         []) in
  exists proxyRequest : Request,
    fetches (w_events run.2) = [proxyRequest]
    /\ req_url proxyRequest = "https://other.example/landing"
    /\ req_headers proxyRequest !! "x-nf-client-connection-ip" = None
    /\ req_headers proxyRequest !! "x-nf-next-middleware" = None
    /\ req_headers proxyRequest !! "accept" = Some "text/html".
Proof.
  destruct (@proxy_request_has_no_internal_headers platform helpers
              sample_context sample_config
              None page_request
              (mkResponse
                 {[ "x-middleware-rewrite" := "https://other.example/landing" ]}
                 (Some "body"))
              [] "https://other.example/landing"
              (mkUrl "https://other.example" "/landing")
              (mkUrl "https://example.com" "/blog")
              (mkUrl "https://example.com" "/blog"))
    as (proxyRequest & res & _ & Hfetched & Hurl & _ & Hdrop & Hkeep).
  - reflexivity.
  - discriminate.
  - reflexivity.
  - reflexivity.
  - reflexivity.
  - discriminate.
  - discriminate.
  - exists proxyRequest. split; [exact Hfetched|]. split; [exact Hurl|].
    split; [apply Hdrop; reflexivity|].
    split; [apply Hdrop; reflexivity|].
    rewrite Hkeep; reflexivity.
Defined.

(** A POST to [/blog] that is rewritten to [/fr/blog]: the request is
    fetched from there with its method, its body and its headers, and the
    middleware response says where, relative to the request. *)
Lemma same_origin_rewrite_is_served_from_target_witness :
  let run :=
    buildResponse sample_context sample_config None
      (mkWorld post_request
         (IsResponse
            (mkResponse {[ "x-middleware-rewrite" := "/fr/blog" ]}
               (Some "body")))
         []) in
  let fetched :=
    mkRequest "https://example.com/fr/blog" "POST"
      {[ "content-type" := "text/plain";
         "x-nf-next-middleware" := "skip";
         "x-middleware-rewrite" := "/fr/blog" ]}
      (Some "payload") false in
  exists res : Response,
    run.1 = Normal (Some (addMiddlewareHeaders (fetch_response fetched) res))
    /\ fetches (w_events run.2) = [fetched]
    /\ req_bodyUsed (w_request run.2) = true
    /\ Hdr.get "x-middleware-rewrite" (res_headers res) = Some "/fr/blog".
Proof.
  pose proof (@same_origin_rewrite_is_served_from_target platform helpers
                sample_context sample_config None post_request
                (mkResponse {[ "x-middleware-rewrite" := "/fr/blog" ]}
                   (Some "body"))
                [] "/fr/blog"
                (mkUrl "https://example.com" "/fr/blog")
                (mkUrl "https://example.com" "/blog")
                (mkUrl "https://example.com" "/blog")
                eq_refl ltac:(discriminate) eq_refl eq_refl eq_refl
                ltac:(discriminate) eq_refl)
    as (_ & _ & _ & Hserved).
  change (has_used_body post_request) with false in Hserved.
  destruct Hserved as (res & Hrun & Hfetched & Hused & _ & Hheader & _).
  exists res. split; [exact Hrun|]. split; [exact Hfetched|].
  split; [exact Hused | exact Hheader].
Defined.

(** A response that only says to go on: the origin answers, and the
    middleware response that goes with it has lost the marker and kept its
    other header. *)
Lemma middleware_next_continues_to_origin_witness :
  let run :=
    buildResponse sample_context sample_config None
      (mkWorld page_request
         (IsResponse
            (mkResponse {[ "x-middleware-next" := "1"; "x-custom" := "a" ]}
               (Some "body")))
         []) in
  exists res : Response,
    run.1 = Normal (Some (addMiddlewareHeaders (next sample_context) res))
    /\ Hdr.get "x-middleware-next" (res_headers res) = None
    /\ Hdr.get "x-custom" (res_headers res) = Some "a"
    /\ continues (w_events run.2) = 1
    /\ fetches (w_events run.2) = [].
Proof.
  destruct (@middleware_next_continues_to_origin platform helpers
              sample_context sample_config None page_request
              (mkResponse {[ "x-middleware-next" := "1"; "x-custom" := "a" ]}
                 (Some "body"))
              [])
    as (res & Hrun & Hnext & Hfetched & _ & Hgone & Hother & _).
  - reflexivity.
  - reflexivity.
  - exists res. split; [exact Hrun|]. split; [exact Hgone|].
    split; [rewrite Hother; [reflexivity | discriminate..]|].
    split; [exact Hnext | exact Hfetched].
Defined.



(** *** Requests that show what the specification has too wide *)

(** C1, as the specification has it, fails: on [/partial] the handler of
    the sample framework throws after it has written the start of the page
    to [res], and the body of the answer is that start followed by 'Internal
    Server Error'. *)
Lemma handler_that_wrote_before_it_threw :
  ~ error_gives_generic_500 partial_request Ready fresh_scope.
Proof.
  intros Hgeneric.
  destruct (Hgeneric sample_handler TypeError
              (mkServerResponse 200 {[ "content-type" := "text/html" ]}
                 "<html>" false))
    as (response & Hrun & _ & Hbody); [reflexivity | reflexivity |].
  assert (Hwritten :
    (handler partial_request Ready fresh_scope).1.1
    = Normal
        (mkComputeResponse 500
           (<["vary" := "rsc"]>
              (<["cache-control" := "public, max-age=0, must-revalidate"]>
                 {[ "content-type" := "text/html" ]}))
           "<html>Internal Server Error")) by reflexivity.
  rewrite Hwritten in Hrun. injection Hrun as <-. discriminate Hbody.
Qed.

(** C3, as the specification has it, fails: when the framework does not
    start in the first invocation, [nextConfig] has been assigned and
    [nextHandler] has not, and the second invocation assigns [nextConfig]
    again. *)
Lemma failed_start_assigns_the_config_again :
  ~ caches_assigned_at_most_once
      [(home_request, FrameworkFails); (home_request, Ready)].
Proof.
  intros [_ Hconfig].
  assert (Htwice :
    times is_AssignNextConfig
      (concat
         (serve [(home_request, FrameworkFails); (home_request, Ready)]
            fresh_scope).2) = 2) by reflexivity.
  cbn zeta in Hconfig. rewrite Htwice in Hconfig. lia.
Qed.


(** C5, as the specification has it, fails: a middleware response carries
    a rewrite of [/blog] to [/fr/blog], which stays within the origin.  It
    goes through lines 43-108: the origin response in it is returned
    through the rewriter, and nothing is fetched. *)
Lemma middleware_response_rewrite_is_not_fetched :
  let run :=
    buildResponse sample_context sample_config None
      (mkWorld page_request (IsMiddlewareResponse rewriting_response) []) in
  Hdr.get "x-middleware-rewrite" (mr_headers rewriting_response)
  = Some "/fr/blog"
  /\ URL_new "/fr/blog" (Some (req_url page_request))
     = Some (mkUrl "https://example.com" "/fr/blog")
  /\ URL_new (req_url page_request) None
     = Some (mkUrl "https://example.com" "/blog")
  /\ run.1
     = Normal (Some (HTMLRewriter_transform []
                       (originResponse rewriting_response)))
  /\ fetches (w_events run.2) = [].
Proof. cbn zeta. repeat split; reflexivity. Qed.


(** C7, as the specification has it, fails: the response says to go on and
    carries a 'location' that is no URL, for a request in French.  The
    redirect block throws at line 177, and [context.next()] is not
    called. *)
Lemma unparsable_redirect_is_not_continued :
  let r :=
    mkResponse {[ "x-middleware-next" := "1"; "location" := "http://" ]}
      (Some "body") in
  let run :=
    buildResponse sample_context sample_config (Some "fr")
      (mkWorld page_request (IsResponse r) []) in
  Hdr.get "x-middleware-rewrite" (res_headers r) = None
  /\ Hdr.get "x-middleware-next" (res_headers r) = Some "1"
  /\ URL_new "http://" (Some (req_url page_request)) = None
  /\ run.1 = Throw TypeError
  /\ continues (w_events run.2) = 0.
Proof. cbn zeta. repeat split; reflexivity. Qed.

(** C9, as the specification has it, fails: the header is there and is
    empty.  Resolved against the request URL it is the request URL, and yet
    the response is returned: an empty value is no rewrite for
    [if (rewrite)]. *)
Lemma empty_rewrite_returns_the_response :
  let r := mkResponse {[ "x-middleware-rewrite" := "" ]} (Some "body") in
  let run :=
    buildResponse sample_context sample_config None
      (mkWorld page_request (IsResponse r) []) in
  Hdr.get "x-middleware-rewrite" (res_headers r) = Some ""
  /\ URL_toString <$> URL_new "" (Some (req_url page_request))
     = URL_toString <$> URL_new (req_url page_request) None
  /\ URL_toString <$> URL_new "" (Some (req_url page_request))
     = Some (req_url page_request)
  /\ run.1 = Normal (Some r).
Proof. cbn zeta. repeat split; reflexivity. Qed.

(** C2, as the specification has it, fails: a rewrite of [/blog] to
    [/fr/blog] stays within the origin, and the rewritten URL is fetched all
    the same. *)
Lemma same_origin_rewrite_fetches :
  ~ fetches_only_across_origins sample_context sample_config None
      (mkWorld page_request
         (IsResponse
            (mkResponse {[ "x-middleware-rewrite" := "/fr/blog" ]}
               (Some "body")))
         []).
Proof.
  intros (fs & Hfs & _ & Hall).
  assert (Hfetched :
    map req_url
      (fetches
         (w_events
            (buildResponse sample_context sample_config None
               (mkWorld page_request
                  (IsResponse
                     (mkResponse {[ "x-middleware-rewrite" := "/fr/blog" ]}
                        (Some "body")))
                  [])).2))
    = ["https://example.com/fr/blog"]) by reflexivity.
  rewrite Hfs in Hfetched. cbn [fetches w_events app] in Hfetched.
  destruct fs as [|q fs]; [discriminate|].
  destruct (Hall q) as (rewrite & rewriteUrl & baseUrl & Hrw & Hu & Hb & Hcross);
    [left|].
  vm_compute in Hrw. injection Hrw as <-.
  vm_compute in Hu. injection Hu as <-.
  vm_compute in Hb. injection Hb as <-.
  apply Hcross. reflexivity.
Qed.

(** C8, as the specification has it, fails: for an OPTIONS request the
    origin response is returned as it is, and its body did not go through
    the transform. *)
Lemma options_request_skips_transforms :
  dataTransforms json_response ≠ []
  /\ ~ transforms_are_applied sample_context sample_config None
         options_request json_response [].
Proof.
  split; [discriminate|].
  intros [Hjson _].
  destruct (Hjson (Number "1")) as (returned & Hrun & Hbody).
  - reflexivity.
  - reflexivity.
  - discriminate.
  - vm_compute in Hrun. injection Hrun as <-. discriminate Hbody.
Qed.

(** The same response to a GET request: the body is the transformed one. *)
Lemma transforms_fold_over_props_witness :
  exists returned : Response,
    (buildResponse sample_context sample_config None
       (mkWorld page_request (IsMiddlewareResponse json_response) [])).1
    = Normal (Some returned)
    /\ res_body returned = Some "[1]".
Proof.
  destruct (@transforms_fold_over_props platform helpers
              sample_context sample_config None page_request json_response [])
    as [[Hjson _] _].
  - discriminate.
  - discriminate.
  - discriminate.
  - apply (Hjson (Number "1")).
    + reflexivity.
    + reflexivity.
    + discriminate.
Defined.

(** *** The further properties on the sample platform *)

Lemma head_and_options_get_origin_response_witness :
  (buildResponse sample_context sample_config None
     (mkWorld options_request (IsMiddlewareResponse json_response) [])).1
  = Normal (Some (originResponse json_response)).
Proof.
  destruct (@head_and_options_get_origin_response platform helpers
              sample_context sample_config None options_request json_response
              [])
    as [Hrun _].
  - right. reflexivity.
  - exact Hrun.
Defined.

Lemma html_response_goes_through_rewriter_witness :
  exists origin : Response,
    (buildResponse sample_context sample_config None
       (mkWorld page_request (IsMiddlewareResponse html_response) [])).1
    = Normal (Some (HTMLRewriter_transform
                      [(NEXT_DATA_selector, NextDataScript [wrap]);
                       ("a[href]", Supplied tt)]
                      origin))
    /\ Hdr.get "set-cookie" (res_headers origin) = Some "session=1"
    /\ Hdr.get "content-type" (res_headers origin) = Some "text/html".
Proof.
  destruct (@html_response_goes_through_rewriter platform helpers
              sample_context sample_config None page_request html_response [])
    as (origin & Hrun & _ & Hcookie & Hother & _).
  - discriminate.
  - discriminate.
  - reflexivity.
  - exists origin. split; [exact Hrun|]. split; [exact Hcookie|].
    rewrite Hother; [reflexivity | discriminate].
Defined.

Lemma json_response_has_length_and_type_witness :
  exists returned : Response,
    (buildResponse sample_context sample_config None
       (mkWorld page_request (IsMiddlewareResponse json_response) [])).1
    = Normal (Some returned)
    /\ res_body returned = Some "[1]"
    /\ Hdr.get "content-length" (res_headers returned) = Some "3"
    /\ Hdr.get "content-type" (res_headers returned)
       = Some "application/json".
Proof.
  destruct (@json_response_has_length_and_type platform helpers
              sample_context sample_config None page_request json_response []
              (Number "1"))
    as (returned & Hrun & Hbody & Hlength & Htype & _).
  - discriminate.
  - discriminate.
  - reflexivity.
  - reflexivity.
  - discriminate.
  - exists returned. auto.
Defined.

Lemma replacement_keeps_the_other_properties_witness :
  exists replaced : list (string * value),
    NextData_text [wrap] "" (mkTextChunk (serialise page_data) true)
    = (serialise page_data, Replaced (serialise (Object replaced)) true, None)
    /\ assoc "props" replaced = Some (Array [Number "1"])
    /\ assoc "page" replaced = Some (Str "/")
    /\ replaced.*1 = ["props"; "page"].
Proof.
  destruct (@replacement_keeps_the_other_properties platform
              [wrap] "" (mkTextChunk (serialise page_data) true)
              [("props", Number "1"); ("page", Str "/")])
    as (replaced & Hedit & Hprops & Hother & Hkeys & _).
  - reflexivity.
  - reflexivity.
  - exists replaced. split; [exact Hedit|]. split; [exact Hprops|].
    split; [rewrite Hother; [reflexivity | discriminate]|].
    rewrite Hkeys; [reflexivity | eexists; reflexivity].
Defined.

Lemma script_data_that_is_no_object_witness :
  NextData_text [wrap] "" (mkTextChunk "null" true)
  = ("null", Kept, Some TypeError)
  /\ NextData_text [wrap] "" (mkTextChunk "1" true)
     = ("1",
        Replaced (serialise (Object [("props", Array [Undefined])])) true,
        None).
Proof.
  split.
  - apply (@script_data_that_is_no_object platform [wrap] ""
             (mkTextChunk "null" true) Null); reflexivity.
  - apply (@script_data_that_is_no_object platform [wrap] ""
             (mkTextChunk "1" true) (Number "1"));
      [reflexivity | reflexivity | left; eexists; reflexivity].
Defined.

(** A redirect that is no URL, a scheme without a host, and no locale:
    it goes through. *)
Lemma plain_response_passes_through_witness :
  (buildResponse sample_context sample_config None
     (mkWorld page_request
        (IsResponse (mkResponse {[ "location" := "http://" ]} (Some "body")))
        [])).1
  = Normal (Some (mkResponse {[ "location" := "http://" ]} (Some "body"))).
Proof.
  destruct (@plain_response_passes_through platform helpers
              sample_context sample_config None page_request
              (mkResponse {[ "location" := "http://" ]} (Some "body")) [])
    as [Hrun _].
  - reflexivity.
  - reflexivity.
  - right. reflexivity.
  - discriminate.
  - exact Hrun.
Defined.

Lemma data_request_normalizes_router_redirect_witness :
  exists res : Response,
    ((buildResponse sample_context sample_config None
        (mkWorld data_request
           (IsResponse
              (mkResponse
                 {[ "x-nextjs-redirect" := "/_next/data/build/about.json" ]}
                 (Some "body")))
           [])).1 = Normal (Some res)
     \/ (buildResponse sample_context sample_config None
           (mkWorld data_request
              (IsResponse
                 (mkResponse
                    {[ "x-nextjs-redirect" := "/_next/data/build/about.json" ]}
                    (Some "body")))
              [])).1
        = Normal (Some (addMiddlewareHeaders (next sample_context) res)))
    /\ Hdr.get "x-nextjs-redirect" (res_headers res) = Some "/about.json".
Proof.
  destruct (@data_request_normalizes_router_redirect platform helpers
              sample_context sample_config None data_request
              (mkResponse
                 {[ "x-nextjs-redirect" := "/_next/data/build/about.json" ]}
                 (Some "body"))
              [] "/_next/data/build/about.json")
    as (res & Hrun & Hrouter & _).
  - reflexivity.
  - reflexivity.
  - reflexivity.
  - reflexivity.
  - discriminate.
  - exists res. auto.
Defined.

(** A POST across origins: the body goes along and the request is left
    with its body used. *)
Lemma proxy_request_takes_an_unused_body_witness :
  let run :=
    buildResponse sample_context sample_config None
      (mkWorld post_request
         (IsResponse
            (mkResponse
               {[ "x-middleware-rewrite" := "https://other.example/landing" ]}
               (Some "body")))
         []) in
  exists proxyRequest : Request,
    fetches (w_events run.2) = [proxyRequest]
    /\ req_body proxyRequest = Some "payload"
    /\ req_bodyUsed (w_request run.2) = true.
Proof.
  destruct (@proxy_request_takes_an_unused_body platform helpers
              sample_context sample_config None post_request
              (mkResponse
                 {[ "x-middleware-rewrite" := "https://other.example/landing" ]}
                 (Some "body"))
              [] "https://other.example/landing"
              (mkUrl "https://other.example" "/landing")
              (mkUrl "https://example.com" "/blog")
              (mkUrl "https://example.com" "/blog"))
    as (proxyRequest & Hfetched & Hbody & _ & _ & Hused).
  - reflexivity.
  - discriminate.
  - reflexivity.
  - reflexivity.
  - reflexivity.
  - discriminate.
  - discriminate.
  - exists proxyRequest. auto.
Defined.

(** A data request that is rewritten to another origin, and a request
    whose body was read that is rewritten within the origin. *)
Lemma rewrite_headers_of_the_middleware_response_witness :
  (let run :=
     buildResponse sample_context sample_config None
       (mkWorld data_request
          (IsResponse
             (mkResponse
                {[ "x-middleware-rewrite" := "https://other.example/landing" ]}
                (Some "body")))
          []) in
   exists (fetched : Request) (res : Response),
     run.1 = Normal (Some (addMiddlewareHeaders (fetch_response fetched) res))
     /\ Hdr.get "x-nextjs-rewrite" (res_headers res)
        = Some "https://other.example/landing"
     /\ Hdr.get "x-middleware-rewrite" (res_headers res)
        = Some "https://other.example/landing"
     /\ Hdr.get "x-middleware-rewrite" (req_headers (w_request run.2)) = None)
  /\ (buildResponse sample_context sample_config None
        (mkWorld read_request
           (IsResponse
              (mkResponse {[ "x-middleware-rewrite" := "/fr/blog" ]}
                 (Some "body")))
           [])).1
     = Throw TypeError.
Proof.
  split.
  - pose proof (@rewrite_headers_of_the_middleware_response platform helpers
                  sample_context sample_config None data_request
                  (mkResponse
                     {[ "x-middleware-rewrite"
                        := "https://other.example/landing" ]}
                     (Some "body"))
                  [] "https://other.example/landing"
                  (mkUrl "https://other.example" "/landing")
                  (mkUrl "https://example.com" "/blog")
                  (mkUrl "https://example.com" "/blog")
                  eq_refl ltac:(discriminate) eq_refl eq_refl eq_refl
                  ltac:(discriminate))
      as Hheaders.
    change (has_used_body data_request) with false in Hheaders.
    destruct Hheaders as (fetched & res & Hrun & _ & Hdata & Hrewrite
                          & Hrequest & _).
    exists fetched, res. auto.
  - pose proof (@rewrite_headers_of_the_middleware_response platform helpers
                  sample_context sample_config None read_request
                  (mkResponse {[ "x-middleware-rewrite" := "/fr/blog" ]}
                     (Some "body"))
                  [] "/fr/blog"
                  (mkUrl "https://example.com" "/fr/blog")
                  (mkUrl "https://example.com" "/blog")
                  (mkUrl "https://example.com" "/blog")
                  eq_refl ltac:(discriminate) eq_refl eq_refl eq_refl
                  ltac:(discriminate))
      as Hrefused.
    exact (proj1 Hrefused).
Defined.

Lemma handler_returns_what_the_framework_wrote_witness :
  exists response : ComputeResponse,
    (handler home_request Ready fresh_scope).1.1 = Normal response
    /\ status response = 200%Z
    /\ cr_body response = "<html></html>".
Proof.
  destruct (@handler_returns_what_the_framework_wrote server_env
              home_request Ready fresh_scope sample_handler
              (mkServerResponse 200 {[ "content-type" := "text/html" ]}
                 "<html></html>" true))
    as (response & Hrun & Hstatus & Hbody & _).
  - reflexivity.
  - reflexivity.
  - exists response. auto.
Defined.


(** A rewrite to what is no URL, a scheme without a host: the run
    throws. *)
Lemma plain_response_throws_on_bad_url_witness :
  (buildResponse sample_context sample_config None
     (mkWorld page_request
        (IsResponse
           (mkResponse {[ "x-middleware-rewrite" := "http://" ]}
              (Some "body")))
        [])).1
  = Throw TypeError.
Proof.
  destruct (@plain_response_throws_on_bad_url platform helpers
              sample_context sample_config None page_request
              (mkResponse {[ "x-middleware-rewrite" := "http://" ]}
                 (Some "body"))
              [])
    as [Hrun _].
  - left. exists "http://". split; reflexivity.
  - exact Hrun.
Defined.

(** The text of the script tag in two chunks: the first is removed, the
    second is replaced according to both. *)
Lemma NextData_buffer_is_never_reset_witness :
  (NextData_run [wrap] "" [mkTextChunk " " false; mkTextChunk "1" true]).1
  = " 1"
  /\ (NextData_run [wrap] "" [mkTextChunk " " false; mkTextChunk "1" true]).2
     = [Removed;
        Replaced (serialise (Object [("props", Array [Undefined])])) true].
Proof.
  destruct (@NextData_buffer_is_never_reset platform [wrap]
              [mkTextChunk " " false; mkTextChunk "1" true] "")
    as (Hbuffer & Hlength & Hedits).
  split; [exact Hbuffer|].
  pose proof (Hedits 0 (mkTextChunk " " false) eq_refl) as Hfirst.
  pose proof (Hedits 1 (mkTextChunk "1" true) eq_refl) as Hsecond.
  destruct (NextData_run [wrap] ""
              [mkTextChunk " " false; mkTextChunk "1" true]).2
    as [|first [|second [|third edits]]]; try discriminate.
  injection Hfirst as ->. injection Hsecond as ->. reflexivity.
Defined.
